(** * ArduinoApp (src/arduino/arduino.ts): build, install and upload orchestration

    A shallow embedding of the [ArduinoApp] class.  The class is written in
    TypeScript over promises, singletons and an output channel; here every
    method is a computation in a small monad [M] that threads the mutable
    state the class touches ([World]), records the calls made to the
    collaborators ([Event]) and carries JavaScript exceptions ([Exn]).

    What the class reads from its surroundings (settings, the selected
    board, the file system, Node's [path] module, the answers of spawned
    processes and of the serial-port enumeration) is gathered in [Env]. *)

From Stdlib Require Import String Ascii List ZArith Bool Lia DecimalString.
Import ListNotations.
Local Open Scope Z_scope.
Local Open Scope string_scope.

(** ** JavaScript values that the code handles as "string or nothing" *)

Module Js.

Inductive value : Type :=
| undefined
| null
| str (s : string).

(** [undefined], [null] and the empty string are falsy: [!v] is
    [negb (truthy v)]. *)
Definition truthy (v : value) : bool :=
  match v with
  | str s => negb (s =? "")
  | _ => false
  end.

(** [a === b]. *)
Definition strict_eq (a b : value) : bool :=
  match a, b with
  | undefined, undefined => true
  | null, null => true
  | str s, str t => (s =? t)%string
  | _, _ => false
  end.

(** String conversion, as performed by template literals and by [+]. *)
Definition to_string (v : value) : string :=
  match v with
  | undefined => "undefined"
  | null => "null"
  | str s => s
  end.

(** [a || b]. *)
Definition or (a b : value) : value := if truthy a then a else b.

(** A function object (a method that is referenced but not called) is
    always truthy, whatever the method would return. *)
Definition method_truthy {A : Type} (m : unit -> A) : bool := true.

Definition string_of_Z (z : Z) : string := NilZero.string_of_int (Z.to_int z).

(** [`${error.code}`] where the code is a number or missing. *)
Definition code_to_string (c : option Z) : string :=
  match c with
  | Some z => string_of_Z z
  | None => "undefined"
  end.

End Js.

Notation "a === b" := (Js.strict_eq a b) (at level 70, no associativity).

(** ** Properties

    Modelled from the spec: the class [Properties] of ../common/Properties is
    not among the sources.  The design describes it as an ordered mapping
    from dotted keys to values with [get] (absent value for a missing key),
    [set], a last-wins [merge] and [extractWithPrefix], which keeps the keys
    below [prefix.] and strips that prefix.  Values are JavaScript values,
    because the class stores whatever [get] returned, [undefined] included. *)

Module Properties.

Definition t : Type := list (string * Js.value).

Fixpoint get (p : t) (k : string) : Js.value :=
  match p with
  | [] => Js.undefined
  | (k', v) :: rest => if (k' =? k)%string then v else get rest k
  end.

Fixpoint set (p : t) (k : string) (v : Js.value) : t :=
  match p with
  | [] => [(k, v)]
  | (k', v') :: rest =>
      if (k' =? k)%string then (k, v) :: rest else (k', v') :: set rest k v
  end.

Definition merge (p other : t) : t :=
  fold_left (fun acc kv => set acc (fst kv) (snd kv)) other p.

Definition extractWithPrefix (p : t) (pre : string) : t :=
  let dotted := pre ++ "." in
  fold_left
    (fun acc kv =>
       if String.prefix dotted (fst kv)
       then set acc (substring (String.length dotted)
                               (String.length (fst kv) - String.length dotted)%nat
                               (fst kv))
                    (snd kv)
       else acc)
    p [].

End Properties.

(** ** The surroundings of the class *)

Record PortInfo : Type := { comName : string }.

Inductive FsNode : Type :=
| File
| Directory (entries : list string).

(** Modelled from the spec: [util.spawn] (../common/util) is not among the
    sources.  The promise it returns resolves when the process exits with
    code 0 and is rejected with an object carrying [code] otherwise; a
    process that could not be started rejects without a code. *)
Inductive SpawnOutcome : Type :=
| Resolved
| Rejected (code : option Z).

Definition spawn_exit (code : Z) : SpawnOutcome :=
  if (code =? 0)%Z then Resolved else Rejected (Some code).

Record Settings : Type := {
  commandPath : string;
  builderPath : string;
  arduinoPath : string;
  defaultPackagePath : string;
  packagePath : string;
  sketchbookPath : string;
  preferencePath : string;
  toolProperties : Properties.t
}.

Record Board : Type := {
  getBuildConfig : string;
  getPackageName : string;
  architecture : string;   (* currentBoard.platform.architecture *)
  board : string
}.

Record VscodeSettings : Type := {
  builder : string;
  logLevel : string;
  uploadCommand : Js.value;
  verifyCommand : Js.value
}.

Record DeviceContext : Type := {
  sketch : Js.value;
  port : Js.value;
  output : Js.value
}.

Record Env : Type := {
  settings : Settings;                       (* this._settings *)
  vscodeSettings : VscodeSettings;           (* VscodeSettings.getInstance() *)
  rootPath : Js.value;                       (* vscode.workspace.rootPath *)
  currentBoard : option Board;               (* this._boardManager.currentBoard *)
  path_join : list string -> string;         (* path.join *)
  path_basename : string -> string;          (* path.basename *)
  EOL : string;                              (* os.EOL *)
  splitArgs : Js.value -> list string;       (* util.splitArgs *)
  NO_BOARD_SELECTED : string;                (* constants.messages.NO_BOARD_SELECTED *)
  fs_node : string -> option FsNode;         (* the file system *)
  load_file : string -> Properties.t;        (* what Properties.loadFile parses *)
  spawn_outcome : Js.value -> list string -> SpawnOutcome;
  serial_list : nat -> list PortInfo;        (* n-th answer of SerialPortCtrl.list() *)
  serial_open_ok : bool;                     (* does SerialPortCtrl.open() resolve *)
  serial_stop_ok : bool;                     (* does SerialPortCtrl.stop() resolve *)
  closeSerialMonitor_result : bool;          (* needRestore *)
  resolveMainSketch_result : Js.value        (* dc.sketch after dc.resolveMainSketch() *)
}.

Definition with_spawn_outcome (env : Env)
    (f : Js.value -> list string -> SpawnOutcome) : Env :=
  {| settings := settings env;
     vscodeSettings := vscodeSettings env;
     rootPath := rootPath env;
     currentBoard := currentBoard env;
     path_join := path_join env;
     path_basename := path_basename env;
     EOL := EOL env;
     splitArgs := splitArgs env;
     NO_BOARD_SELECTED := NO_BOARD_SELECTED env;
     fs_node := fs_node env;
     load_file := load_file env;
     spawn_outcome := f;
     serial_list := serial_list env;
     serial_open_ok := serial_open_ok env;
     serial_stop_ok := serial_stop_ok env;
     closeSerialMonitor_result := closeSerialMonitor_result env;
     resolveMainSketch_result := resolveMainSketch_result env |}.

(** Every toolchain process of the run exits with [code]. *)
Definition exiting (env : Env) (code : Z) : Env :=
  with_spawn_outcome env (fun _ _ => spawn_exit code).

(** ** Effects *)

Inductive Event : Type :=
| ChannelShow                                   (* arduinoChannel.show() *)
| ChannelStart (msg : string)                   (* arduinoChannel.start *)
| ChannelEnd (msg : string)                     (* arduinoChannel.end *)
| ChannelError (msg : string)                   (* arduinoChannel.error *)
| ChannelInfo (msg : string)                    (* arduinoChannel.info *)
| Spawn (cmd : Js.value) (showOutput : bool) (args : list string)
        (cwd : option Js.value)                 (* util.spawn *)
| ShowWarningMessage (msg : string)             (* vscode.window *)
| ShowErrorMessage (msg : string)
| NotifyUserError (tag msg : string)            (* Logger.notifyUserError *)
| PauseListening                                (* UsbDetector *)
| ResumeListening
| SerialList                                    (* SerialPortCtrl.list() *)
| SerialOpen (p : Js.value) (baud : Z)          (* new SerialPortCtrl(..).open() *)
| SerialStop                                    (* .stop() *)
| Delay (ms : Z)                                (* util.delay *)
| CloseSerialMonitor (p : Js.value)
| OpenSerialMonitor
| SaveAll                                       (* vscode.workspace.saveAll *)
| ResolveMainSketch                             (* dc.resolveMainSketch() *)
| LoadFile (file : string)                      (* Properties.loadFile *)
| ReloadPreferences                             (* this._settings.reloadPreferences() *)
| Mkdir (dir : string).                         (* util.mkdirRecursivelySync *)

Inductive Exn : Type :=
| TypeError (msg : string)
| Error (msg : string)
| SpawnRejected (code : option Z)
| SerialFailure.

(** [reason.code] in a catch clause or rejection handler. *)
Definition exn_code (e : Exn) : option Z :=
  match e with
  | SpawnRejected c => c
  | _ => None
  end.

(** The mutable state: the hot-plug listener of [UsbDetector], the number of
    enumerations of serial devices made so far, and the [DeviceContext]
    singleton, which every method receives by reference. *)
Record World : Type := {
  listening : bool;
  list_calls : nat;
  dc : DeviceContext
}.

Inductive Res (A : Type) : Type :=
| Ok (a : A)
| Throw (e : Exn)
| Diverged.          (* a loop ran out of the steps granted to it *)
Arguments Ok {A} a.
Arguments Throw {A} e.
Arguments Diverged {A}.

Record Out (A : Type) : Type := mkOut {
  res : Res A;
  events : list Event;
  world : World
}.
Arguments mkOut {A} res events world.
Arguments res {A} o.
Arguments events {A} o.
Arguments world {A} o.

Definition M (A : Type) : Type := World -> Out A.

Definition ret {A} (a : A) : M A := fun w => mkOut (Ok a) [] w.

Definition bind {A B} (m : M A) (f : A -> M B) : M B :=
  fun w =>
    match m w with
    | mkOut (Ok a) ev w1 =>
        match f a w1 with
        | mkOut r ev' w2 => mkOut r (ev ++ ev') w2
        end
    | mkOut (Throw e) ev w1 => mkOut (Throw e) ev w1
    | mkOut Diverged ev w1 => mkOut Diverged ev w1
    end.

Notation "x <- m ;; k" := (bind m (fun x => k))
  (at level 61, m at next level, right associativity).
Notation "m ;; k" := (bind m (fun _ => k))
  (at level 61, right associativity).

Definition throw {A} (e : Exn) : M A := fun w => mkOut (Throw e) [] w.
Definition emit (e : Event) : M unit := fun w => mkOut (Ok tt) [e] w.
Definition get_dc : M DeviceContext := fun w => mkOut (Ok (dc w)) [] w.

(** [try { m } catch (e) { h e }] *)
Definition try_catch {A} (m : M A) (h : Exn -> M A) : M A :=
  fun w =>
    match m w with
    | mkOut (Throw e) ev w1 =>
        match h e w1 with
        | mkOut r ev' w2 => mkOut r (ev ++ ev') w2
        end
    | o => o
    end.

(** [try { m } finally { fin }]: [fin] runs after [m] however [m] ends; an
    exception of [fin] replaces the outcome of [m]. *)
Definition try_finally {A} (m : M A) (fin : M unit) : M A :=
  fun w =>
    match m w with
    | mkOut Diverged ev w1 => mkOut Diverged ev w1
    | mkOut r ev w1 =>
        match fin w1 with
        | mkOut (Ok _) ev' w2 => mkOut r (ev ++ ev') w2
        | mkOut (Throw e) ev' w2 => mkOut (Throw e) (ev ++ ev') w2
        | mkOut Diverged ev' w2 => mkOut Diverged (ev ++ ev') w2
        end
    end.

(** [m.then(onOk, onErr)]: the rejection handler sees a rejection of [m]
    only, not one of [onOk]. *)
Definition then_ {A B} (m : M A) (onOk : A -> M B) (onErr : Exn -> M B) : M B :=
  fun w =>
    match m w with
    | mkOut (Ok a) ev w1 =>
        match onOk a w1 with
        | mkOut r ev' w2 => mkOut r (ev ++ ev') w2
        end
    | mkOut (Throw e) ev w1 =>
        match onErr e w1 with
        | mkOut r ev' w2 => mkOut r (ev ++ ev') w2
        end
    | mkOut Diverged ev w1 => mkOut Diverged ev w1
    end.

Definition when (b : bool) (m : M unit) : M unit := if b then m else ret tt.

(** ** Calls to the collaborators *)

Definition delay (ms : Z) : M unit := emit (Delay ms).

Definition spawn (env : Env) (cmd : Js.value) (showOutput : bool)
    (args : list string) (cwd : option Js.value) : M unit :=
  emit (Spawn cmd showOutput args cwd) ;;
  match spawn_outcome env cmd args with
  | Resolved => ret tt
  | Rejected c => throw (SpawnRejected c)
  end.

Definition SerialPortCtrl_list (env : Env) : M (list PortInfo) :=
  fun w =>
    mkOut (Ok (serial_list env (list_calls w))) [SerialList]
          {| listening := listening w;
             list_calls := S (list_calls w);
             dc := dc w |}.

Definition SerialPortCtrl_open (env : Env) (p : Js.value) (baud : Z) : M unit :=
  emit (SerialOpen p baud) ;;
  if serial_open_ok env then ret tt else throw SerialFailure.

Definition SerialPortCtrl_stop (env : Env) : M unit :=
  emit SerialStop ;;
  if serial_stop_ok env then ret tt else throw SerialFailure.

Definition pauseListening : M unit :=
  fun w =>
    mkOut (Ok tt) [PauseListening]
          {| listening := false; list_calls := list_calls w; dc := dc w |}.

Definition resumeListening : M unit :=
  fun w =>
    mkOut (Ok tt) [ResumeListening]
          {| listening := true; list_calls := list_calls w; dc := dc w |}.

Definition closeSerialMonitor (env : Env) (p : Js.value) : M bool :=
  emit (CloseSerialMonitor p) ;; ret (closeSerialMonitor_result env).

Definition openSerialMonitor : M unit := emit OpenSerialMonitor.

Definition saveAll : M unit := emit SaveAll.

Definition resolveMainSketch (env : Env) : M unit :=
  fun w =>
    mkOut (Ok tt) [ResolveMainSketch]
          {| listening := listening w;
             list_calls := list_calls w;
             dc := {| sketch := resolveMainSketch_result env;
                      port := port (dc w);
                      output := output (dc w) |} |}.

Definition loadFile (env : Env) (file : string) : M Properties.t :=
  emit (LoadFile file) ;; ret (load_file env file).

Definition fileExistsSync (env : Env) (p : string) : bool :=
  match fs_node env p with
  | Some File => true
  | _ => false
  end.

Definition directoryExistsSync (env : Env) (p : string) : bool :=
  match fs_node env p with
  | Some (Directory _) => true
  | _ => false
  end.

(** [fs.Stats]: [isDirectory] is a method. *)
Record Stats : Type := { isDirectory : unit -> bool }.

Definition lstatSync (env : Env) (p : string) : M Stats :=
  match fs_node env p with
  | None => throw (Error "ENOENT")
  | Some File => ret {| isDirectory := fun _ => false |}
  | Some (Directory _) => ret {| isDirectory := fun _ => true |}
  end.

Definition readdirSync (env : Env) (p : string) : M (list string) :=
  match fs_node env p with
  | None => throw (Error "ENOENT")
  | Some File => throw (Error "ENOTDIR")
  | Some (Directory entries) => ret entries
  end.

Fixpoint strings_of (xs : list Js.value) : option (list string) :=
  match xs with
  | [] => Some []
  | Js.str s :: rest =>
      match strings_of rest with
      | Some ss => Some (s :: ss)
      | None => None
      end
  | _ :: _ => None
  end.

(** [path.join] applied to values that may not be strings: Node throws a
    [TypeError] for an argument that is not a string. *)
Definition js_path_join (env : Env) (xs : list Js.value) : M string :=
  match strings_of xs with
  | Some ss => ret (path_join env ss)
  | None => throw (TypeError "The path argument must be of type string")
  end.

Definition js_path_basename (env : Env) (x : Js.value) : M string :=
  match x with
  | Js.str s => ret (path_basename env s)
  | _ => throw (TypeError "The path argument must be of type string")
  end.

(** [this._boardManager.currentBoard.<member>] *)
Definition the_board (env : Env) : M Board :=
  match currentBoard env with
  | Some b => ret b
  | None => throw (TypeError "Cannot read properties of null")
  end.

(** [args[0]] *)
Definition first_arg (args : list string) : Js.value :=
  match args with
  | [] => Js.undefined
  | a :: _ => Js.str a
  end.

(** [s && t] on strings inside a template literal. *)
Definition and_str (s t : string) : string := if (s =? "") then s else t.

(** [error.code === n] *)
Definition code_is (e : Exn) (n : Z) : bool :=
  match exn_code e with
  | Some c => (c =? n)%Z
  | None => false
  end.

Definition exit_message (env : Env) (e : Exn) : string :=
  "Exit with code=" ++ Js.code_to_string (exn_code e) ++ EOL env.

(** ** The methods of [ArduinoApp] *)

Module ArduinoApp.

(** *** Package and library installation *)

Definition installBoard (env : Env) (packageName arch version : string)
    (showOutput : bool) : M unit :=
  emit ChannelShow ;;
  let updatingIndex :=
    (packageName =? "dummy") && negb (Js.truthy (Js.str arch))
      && negb (Js.truthy (Js.str version)) in
  (if updatingIndex
   then emit (ChannelStart "Update package index files...")
   else emit (ChannelStart ("Install package - " ++ packageName ++ "..."))) ;;
  try_catch
    (spawn env (Js.str (commandPath (settings env))) showOutput
           ["--install-boards";
            packageName ++ and_str arch (":" ++ arch) ++ and_str version (":" ++ version)]
           None ;;
     if updatingIndex
     then emit (ChannelEnd "Updated package index files.")
     else emit (ChannelEnd ("Installed board package - " ++ packageName ++ EOL env)))
    (fun error =>
       (* If a platform with the same version is already installed, nothing
          is installed and program exits with exit code 1 *)
       if code_is error 1 then
         if updatingIndex
         then emit (ChannelEnd "Updated package index files.")
         else emit (ChannelEnd ("Installed board package - " ++ packageName ++ EOL env))
       else emit (ChannelError (exit_message env error))).

Definition installLibrary (env : Env) (libName version : string)
    (showOutput : bool) : M unit :=
  emit ChannelShow ;;
  let updatingIndex := (libName =? "dummy") && negb (Js.truthy (Js.str version)) in
  (if updatingIndex
   then emit (ChannelStart "Update library index files...")
   else emit (ChannelStart ("Install library - " ++ libName))) ;;
  try_catch
    (spawn env (Js.str (commandPath (settings env))) showOutput
           ["--install-library"; libName ++ and_str version (":" ++ version)]
           None ;;
     if updatingIndex
     then emit (ChannelEnd "Updated library index files.")
     else emit (ChannelEnd ("Installed library - " ++ libName ++ EOL env)))
    (fun error =>
       if code_is error 1 then
         if updatingIndex
         then emit (ChannelEnd "Updated library index files.")
         else emit (ChannelEnd ("Installed library - " ++ libName ++ EOL env))
       else emit (ChannelError (exit_message env error))).

Definition setPref (env : Env) (key value : string) : M unit :=
  try_catch
    (spawn env (Js.str (commandPath (settings env))) false
           ["--pref"; key ++ "=" ++ value; "--save-prefs"] None)
    (fun _ => ret tt).

Definition initialize (env : Env) (force : bool) : M unit :=
  when (negb (fileExistsSync env (preferencePath (settings env))))
       (try_catch
          (setPref env "boardsmanager.additional.urls" "" ;;
           emit ReloadPreferences)
          (fun _ => ret tt)) ;;
  when (force || negb (fileExistsSync env
                         (path_join env [packagePath (settings env); "package_index.json"])))
       (try_catch
          (* Use the dummy package to initialize the Arduino IDE *)
          (installBoard env "dummy" "" "" true)
          (fun _ => ret tt)).

Definition initializeLibrary (env : Env) (force : bool) : M unit :=
  when (force || negb (fileExistsSync env
                         (path_join env [packagePath (settings env); "library_index.json"])))
       (try_catch
          (* Use the dummy library to initialize the Arduino IDE *)
          (installLibrary env "dummy" "" true)
          (fun _ => ret tt)).

(** *** Board and sketch *)

(** Returns [string | undefined]. *)
Definition getBoardBuildString (env : Env) : M Js.value :=
  match currentBoard env with
  | None =>
      emit (NotifyUserError "getBoardBuildString" (NO_BOARD_SELECTED env)) ;;
      ret Js.undefined
  | Some selectedBoard => ret (Js.str (getBuildConfig selectedBoard))
  end.

Definition getMainSketch (env : Env) : M unit :=
  resolveMainSketch env ;;
  d <- get_dc ;;
  if negb (Js.truthy (sketch d)) then
    emit (ShowErrorMessage
            "No sketch file was found. Please specify the sketch in the arduino.json file") ;;
    throw (Error "No sketch file was found.")
  else ret tt.

(** [!dc.sketch || !util.fileExistsSync(path.join(rootPath, dc.sketch))] *)
Definition sketch_missing (env : Env) : M bool :=
  d <- get_dc ;;
  if negb (Js.truthy (sketch d)) then ret true
  else
    p <- js_path_join env [rootPath env; sketch d] ;;
    ret (negb (fileExistsSync env p)).

(** *** Serial port negotiation *)

(** [xs.some((x) => x.comName === name)] *)
Definition some_comName (xs : list PortInfo) (name : Js.value) : bool :=
  existsb (fun x => Js.str (comName x) === name) xs.

(** The [for] loop of [waitForUploadPort]: the first [p] of [now] whose
    name no element of [before] carries. *)
Definition first_new (before now : list PortInfo) : option PortInfo :=
  find (fun p => negb (some_comName before (Js.str (comName p)))) now.

(** The [while (elapsed < 10000)] loop; [fuel] bounds the number of
    iterations and [Diverged] reports that it did not suffice. *)
Fixpoint waitForUploadPort_loop (env : Env) (fuel : nat) (uploadPort : Js.value)
    (before : list PortInfo) (elapsed : Z) : M Js.value :=
  if (elapsed <? 10000)%Z then
    match fuel with
    | O => fun w => mkOut Diverged [] w
    | S fuel' =>
        now <- SerialPortCtrl_list env ;;
        match first_new before now with
        | Some p => ret (Js.str (comName p))
        | None =>
            let before := now in
            delay 250 ;;
            let elapsed := (elapsed + 250)%Z in
            if (5000 <=? elapsed)%Z && some_comName now uploadPort
            then ret uploadPort
            else waitForUploadPort_loop env fuel' uploadPort before elapsed
        end
    end
  else ret Js.undefined.   (* falling off the end of the function *)

(** 40 iterations of 250 ms reach the bound of 10000 ms. *)
Definition waitForUploadPort (env : Env) (uploadPort : Js.value)
    (before : list PortInfo) : M Js.value :=
  waitForUploadPort_loop env 40 uploadPort before 0.

Fixpoint waitForPort_loop (env : Env) (fuel : nat) (p : Js.value) (elapsed : Z)
    : M unit :=
  if (elapsed <? 2000)%Z then
    match fuel with
    | O => fun w => mkOut Diverged [] w
    | S fuel' =>
        ports <- SerialPortCtrl_list env ;;
        if some_comName ports p then ret tt
        else
          delay 250 ;;
          waitForPort_loop env fuel' p (elapsed + 250)%Z
    end
  else ret tt.

Definition waitForPort (env : Env) (p : Js.value) : M unit :=
  delay 1000 ;;
  waitForPort_loop env 8 p 0.

Definition prepareUploadPort (env : Env) (uploadProperties : Properties.t)
    (verbose : bool) : M Js.value :=
  d <- get_dc ;;
  let doTouch :=
    Properties.get uploadProperties "upload.use_1200bps_touch" === Js.str "true" in
  let waitForUploadPort_ :=
    Properties.get uploadProperties "upload.wait_for_upload_port" === Js.str "true" in
  let actualUploadPort := Js.null in
  actualUploadPort <-
    (if doTouch then
       before <- SerialPortCtrl_list env ;;
       when (some_comName before (port d))
            (when verbose
                  (emit (ChannelInfo ("Forcing reset using 1200bps open/close on port "
                                        ++ Js.to_string (port d)))) ;;
             try_finally (SerialPortCtrl_open env (port d) 1200)
                         (SerialPortCtrl_stop env)) ;;
       delay 400 ;;
       if waitForUploadPort_ then
         actualUploadPort <- waitForUploadPort env (port d) before ;;
         delay 250 ;;
         ret actualUploadPort
       else ret actualUploadPort
     else ret actualUploadPort) ;;
  delay 400 ;;
  let actualUploadPort :=
    if actualUploadPort === Js.null then port d else actualUploadPort in
  ret actualUploadPort.

(** *** Platform directory *)

(** Returns [string | null]. *)
Definition resolvePackagePath (env : Env) : M (option string) :=
  (* first try built-in platforms *)
  b <- the_board env ;;
  let packager := getPackageName b in
  let arch := architecture b in
  let builtInPath := path_join env [defaultPackagePath (settings env); packager; arch] in
  found <- try_catch
             (stat <- lstatSync env builtInPath ;;
              if Js.method_truthy (isDirectory stat)   (* if (stat.isDirectory) *)
              then ret (Some builtInPath)
              else ret None)
             (fun _ => ret None) ;;   (* built-in platform not found *)
  match found with
  | Some p => ret (Some p)
  | None =>
      (* external platforms? *)
      let externalPath :=
        path_join env [packagePath (settings env); "packages"; packager; "hardware"; arch] in
      found <- try_catch
                 (files <- readdirSync env externalPath ;;
                  match files with
                  | version :: _ => ret (Some (path_join env [externalPath; version]))
                  | [] => ret None
                  end)
                 (fun _ => ret None) ;;   (* can not resolve *)
      match found with
      | Some p => ret (Some p)
      | None => ret None
      end
  end.

(** *** Upload strategies *)

Definition uploadByCommand (env : Env) (boardDescriptor : string) : M unit :=
  d <- get_dc ;;
  emit ChannelShow ;;
  emit (ChannelStart ("Upload sketch - " ++ Js.to_string (sketch d))) ;;
  needRestore <- closeSerialMonitor env (port d) ;;
  saveAll ;;
  let args := splitArgs env (uploadCommand (vscodeSettings env)) in
  then_ (spawn env (first_arg args) true (tl args) (Some (rootPath env)))
        (fun _ =>
           when needRestore openSerialMonitor ;;
           emit (ChannelEnd ("Uploaded the sketch: " ++ Js.to_string (sketch d) ++ EOL env)))
        (fun reason => emit (ChannelError (exit_message env reason))).

Definition uploadByPattern (env : Env) (boardDescriptor : string) : M unit :=
  d <- get_dc ;;
  packageDir <- resolvePackagePath env ;;
  match packageDir with
  | None => emit (ShowErrorMessage "Cannot found properties for upload.")
  | Some packageDir =>
      uploadProperties <- loadFile env (path_join env [packageDir; "platform.txt"]) ;;
      boardPref <- loadFile env (path_join env [packageDir; "boards.txt"]) ;;
      b <- the_board env ;;
      let uploadProperties :=
        Properties.merge uploadProperties (Properties.extractWithPrefix boardPref (board b)) in
      let uploadProperties :=
        Properties.merge uploadProperties (toolProperties (settings env)) in
      if negb (Js.truthy (output d)) then
        emit (ShowErrorMessage "No output folder specified. Cannot find binary.")
      else
        outputPath <- js_path_join env [rootPath env; output d] ;;
        let uploadProperties :=
          Properties.set uploadProperties "build.path" (Js.str outputPath) in
        projectName <- js_path_basename env (sketch d) ;;
        let uploadProperties :=
          Properties.set uploadProperties "build.project_name" (Js.str projectName) in
        let tool := Properties.get uploadProperties "upload.tool" in
        let verbose := (logLevel (vscodeSettings env) =? "verbose") in
        let uploadProperties :=
          if verbose then
            Properties.set uploadProperties "upload.verbose"
              (Properties.get uploadProperties
                 ("tools." ++ Js.to_string tool ++ ".upload.params.verbose"))
          else
            Properties.set uploadProperties "upload.verbose"
              (Properties.get uploadProperties
                 ("tools." ++ Js.to_string tool ++ ".upload.params.quiet")) in
        needRestore <- closeSerialMonitor env (port d) ;;
        actualUploadPort <- prepareUploadPort env uploadProperties verbose ;;
        let uploadProperties :=
          Properties.set uploadProperties "serial.port" actualUploadPort in
        uploadProperties <-
          match actualUploadPort with
          | Js.str s =>
              if String.prefix "/dev/" s then   (* actualUploadPort.startsWith("/dev/") *)
                ret (Properties.set uploadProperties "serial.port.file"
                       (Js.str (substring 5 (String.length s - 5) s)))
              else
                ret (Properties.set uploadProperties "serial.port.file" actualUploadPort)
          | _ => throw (TypeError "Cannot read properties of undefined (reading 'startsWith')")
          end ;;
        let cmd :=
          Properties.get uploadProperties
            ("tools." ++ Js.to_string tool ++ ".upload.pattern") in
        let args := splitArgs env cmd in
        then_ (spawn env (first_arg args) true (tl args) (Some (rootPath env)))
              (fun _ =>
                 waitForPort env (port d) ;;
                 when needRestore openSerialMonitor ;;
                 emit (ChannelEnd
                         ("Uploaded the sketch: " ++ Js.to_string (sketch d) ++ EOL env)))
              (fun reason => emit (ChannelError (exit_message env reason)))
  end.

Definition uploadByArduinoIde (env : Env) (boardDescriptor : string) : M unit :=
  d <- get_dc ;;
  emit ChannelShow ;;
  emit (ChannelStart ("Upload sketch - " ++ Js.to_string (sketch d))) ;;
  needRestore <- closeSerialMonitor env (port d) ;;
  saveAll ;;
  appPath <- js_path_join env [rootPath env; sketch d] ;;
  let args := ["--upload"; "--board"; boardDescriptor; "--port";
               Js.to_string (port d); appPath] in
  let args :=
    if (logLevel (vscodeSettings env) =? "verbose") then (args ++ ["--verbose"])%list else args in
  then_ (spawn env (Js.str (commandPath (settings env))) true args None)
        (fun _ =>
           when needRestore openSerialMonitor ;;
           emit (ChannelEnd ("Uploaded the sketch: " ++ Js.to_string (sketch d) ++ EOL env)))
        (fun reason => emit (ChannelError (exit_message env reason))).

Definition upload (env : Env) : M unit :=
  boardDescriptor <- getBoardBuildString env ;;
  match boardDescriptor with
  | Js.str boardDescriptor =>
      if (boardDescriptor =? "") then ret tt   (* !boardDescriptor *)
      else if negb (Js.truthy (rootPath env)) then
        emit (ShowWarningMessage "Cannot find the sketch file.")
      else
        missing <- sketch_missing env ;;
        when missing (getMainSketch env) ;;
        d <- get_dc ;;
        if negb (Js.truthy (port d)) then
          emit (ShowErrorMessage "Please specify the upload serial port.")
        else
          pauseListening ;;
          (if (builder (vscodeSettings env) =? "command") then
             uploadByCommand env boardDescriptor
           else if (builder (vscodeSettings env) =? "arduino-builder") then
             uploadByPattern env boardDescriptor
           else
             uploadByArduinoIde env boardDescriptor) ;;
          resumeListening
  | _ => ret tt                                 (* !boardDescriptor *)
  end.

(** *** Verify strategies *)

Definition verifyByCommand (env : Env) (boardDescriptor : string) (output_ : string)
    : M bool :=
  d <- get_dc ;;
  emit (ChannelStart ("Verify sketch - " ++ Js.to_string (sketch d))) ;;
  emit ChannelShow ;;
  (* we need to return the result of verify *)
  try_catch
    (let args := splitArgs env (verifyCommand (vscodeSettings env)) in
     spawn env (first_arg args) true (tl args) (Some (rootPath env)) ;;
     emit (ChannelEnd ("Finished verify sketch - " ++ Js.to_string (sketch d) ++ EOL env)) ;;
     ret true)
    (fun reason =>
       emit (ChannelError (exit_message env reason)) ;;
       ret false).

(** [ps.forEach((p) => { if (util.directoryExistsSync(p)) { args.push(flag, p); } })] *)
Definition push_existing (env : Env) (flag : string) (ps : list string)
    (args : list string) : list string :=
  fold_left
    (fun args p => if directoryExistsSync env p then (args ++ [flag; p])%list else args)
    ps args.

Definition verifyByArduinoBuilder (env : Env) (boardDescriptor : string)
    (output_ : string) : M bool :=
  d <- get_dc ;;
  let st := settings env in
  emit (ChannelStart ("Verify sketch - " ++ Js.to_string (sketch d))) ;;
  appPath <- js_path_join env [rootPath env; sketch d] ;;
  let args := ["-compile"] in
  let args :=
    push_existing env "-hardware"
      [defaultPackagePath st;
       path_join env [packagePath st; "packages"];
       path_join env [sketchbookPath st; "packages"]] args in
  let args :=
    push_existing env "-tools"
      [path_join env [arduinoPath st; "tools-builder"];
       path_join env [defaultPackagePath st; "tools"; "avr"];
       path_join env [packagePath st; "packages"]] args in
  let args :=
    (args ++ ["-built-in-libraries"; path_join env [arduinoPath st; "libraries"]])%list in
  let p := path_join env [sketchbookPath st; "libraries"] in
  let args :=
    if directoryExistsSync env p then (args ++ ["-libraries"; p])%list else args in
  let args := (args ++ ["-fqbn"; boardDescriptor])%list in
  args <-
    (if Js.truthy (Js.or (Js.str output_) (output d)) then
       outputPath <- js_path_join env [rootPath env; Js.or (Js.str output_) (output d)] ;;
       emit (Mkdir outputPath) ;;
       ret (args ++ ["-build-path"; outputPath])%list
     else
       emit (ShowWarningMessage
               "No output folder specified. Output to a temporary folder.") ;;
       ret args) ;;
  let args :=
    if (logLevel (vscodeSettings env) =? "verbose")
    then (args ++ ["-verbose"])%list else args in
  let args := (args ++ ["-logger"; "humantags"])%list in
  let args := (args ++ [appPath])%list in
  emit ChannelShow ;;
  (* we need to return the result of verify *)
  try_catch
    (spawn env (Js.str (builderPath st)) true args None ;;
     emit (ChannelEnd ("Finished verify sketch - " ++ Js.to_string (sketch d) ++ EOL env)) ;;
     ret true)
    (fun reason =>
       emit (ChannelError (exit_message env reason)) ;;
       ret false).

Definition verifyByArduinoIde (env : Env) (boardDescriptor : string) (output_ : string)
    : M bool :=
  d <- get_dc ;;
  emit (ChannelStart ("Verify sketch - " ++ Js.to_string (sketch d))) ;;
  appPath <- js_path_join env [rootPath env; sketch d] ;;
  let args := ["--verify"; "--board"; boardDescriptor; appPath] in
  let args :=
    if (logLevel (vscodeSettings env) =? "verbose")
    then (args ++ ["--verbose"])%list else args in
  args <-
    (if Js.truthy (Js.or (Js.str output_) (output d)) then
       outputPath <- js_path_join env [rootPath env; Js.or (Js.str output_) (output d)] ;;
       ret (args ++ ["--pref"; ("build.path=" ++ outputPath)%string])%list
     else ret args) ;;
  emit ChannelShow ;;
  (* we need to return the result of verify *)
  try_catch
    (spawn env (Js.str (commandPath (settings env))) true args None ;;
     emit (ChannelEnd ("Finished verify sketch - " ++ Js.to_string (sketch d) ++ EOL env)) ;;
     ret true)
    (fun reason =>
       emit (ChannelError (exit_message env reason)) ;;
       ret false).

(** Returns [boolean | undefined]: [None] is the bare [return]. *)
Definition verify (env : Env) (output_ : string) : M (option bool) :=
  boardDescriptor <- getBoardBuildString env ;;
  match boardDescriptor with
  | Js.str boardDescriptor =>
      if (boardDescriptor =? "") then ret None   (* !boardDescriptor *)
      else if negb (Js.truthy (rootPath env)) then
        emit (ShowWarningMessage "Cannot find the sketch file.") ;;
        ret None
      else
        missing <- sketch_missing env ;;
        when missing (getMainSketch env) ;;
        saveAll ;;
        if (builder (vscodeSettings env) =? "command") then
          r <- verifyByCommand env boardDescriptor output_ ;; ret (Some r)
        else if (builder (vscodeSettings env) =? "arduino-builder") then
          r <- verifyByArduinoBuilder env boardDescriptor output_ ;; ret (Some r)
        else
          r <- verifyByArduinoIde env boardDescriptor output_ ;; ret (Some r)
  | _ => ret None                                 (* !boardDescriptor *)
  end.

(** *** Library paths and example projects *)

(** [rootBoardPath] stands for [currentBoard.platform.rootBoardPath] and
    [normalize] for [path.normalize]. *)
Definition getDefaultPackageLibPaths (env : Env) (rootBoardPath : Board -> string)
    (normalize : string -> string) : M (list string) :=
  let result := [] in
  match currentBoard env with
  | None => ret result
  | Some boardDescriptor =>
      let toolsPath := rootBoardPath boardDescriptor in
      if directoryExistsSync env (path_join env [toolsPath; "cores"]) then
        coreLibs <- readdirSync env (path_join env [toolsPath; "cores"]) ;;
        ret (result ++ map (fun coreLib =>
                              normalize (path_join env [toolsPath; "cores"; coreLib]))
                           coreLibs)%list
      else ret result
  end.

(** The callback of [libPaths.forEach] in [addLibPath], on the include path
    of the configuration section ([None] is a missing [includePath]);
    [canon p] stands for [path.resolve(path.normalize(p))]. *)
Definition addLibPath_each (canon : string -> string)
    (includePath : option (list string)) (childLibPath : string)
    : option (list string) :=
  let childLibPath := canon childLibPath in
  match includePath with
  | Some (first :: others) =>
      if existsb (fun existingPath => (childLibPath =? canon existingPath))
                 (first :: others)
      then includePath                                   (* return *)
      else Some ((first :: others) ++ [childLibPath])%list
  | _ => Some [childLibPath]                             (* includePath = []; push *)
  end.

Definition addLibPath_includePath (canon : string -> string)
    (includePath : option (list string)) (libPaths : list string)
    : option (list string) :=
  fold_left (addLibPath_each canon) libPaths includePath.

(** [tmpName] of [openExample]: the [while (true)] loop, with [None] when
    [fuel] iterations did not find a free name. *)
Fixpoint tmpName_loop (env : Env) (fuel : nat) (name : string) (counter : Z)
    (candidateName : string) : option string :=
  match fuel with
  | O => None
  | S fuel' =>
      if negb (fileExistsSync env candidateName)
         && negb (directoryExistsSync env candidateName)
      then Some candidateName
      else
        let counter := (counter + 1)%Z in
        let candidateName := name ++ "_" ++ Js.string_of_Z counter in
        tmpName_loop env fuel' name counter candidateName
  end.

Definition tmpName (env : Env) (fuel : nat) (name : string) : option string :=
  tmpName_loop env fuel name 0 name.

End ArduinoApp.


(** ** A concrete installation, for running the methods

    An Arduino IDE under /opt/arduino, the user's packages under
    /home/dev/.arduino15 and a workspace /ws holding sketch.ino, with a
    Leonardo selected.  The functions of Node's [path] module are the POSIX
    ones restricted to plain segments. *)

Module Demo.

Definition posix_join (xs : list string) : string := String.concat "/" xs.

Fixpoint basename_acc (acc s : string) : string :=
  match s with
  | EmptyString => acc
  | String c rest =>
      if Ascii.eqb c "/" then basename_acc "" rest
      else basename_acc (acc ++ String c "") rest
  end.

Definition posix_basename (s : string) : string := basename_acc "" s.

Fixpoint words_acc (acc s : string) : list string :=
  match s with
  | EmptyString => if (acc =? "") then [] else [acc]
  | String c rest =>
      if Ascii.eqb c " " then
        if (acc =? "") then words_acc "" rest else acc :: words_acc "" rest
      else words_acc (acc ++ String c "") rest
  end.

Definition split_words (v : Js.value) : list string :=
  match v with
  | Js.str s => words_acc "" s
  | _ => []
  end.

Definition ide : Settings :=
  {| commandPath := "/opt/arduino/arduino";
     builderPath := "/opt/arduino/arduino-builder";
     arduinoPath := "/opt/arduino";
     defaultPackagePath := "/opt/arduino/hardware";
     packagePath := "/home/dev/.arduino15";
     sketchbookPath := "/home/dev/Arduino";
     preferencePath := "/home/dev/.arduino15/preferences.txt";
     toolProperties := [] |}.

Definition leonardo : Board :=
  {| getBuildConfig := "arduino:avr:leonardo";
     getPackageName := "arduino";
     architecture := "avr";
     board := "leonardo" |}.

(** The built-in AVR platform is a directory. *)
Definition disk (p : string) : option FsNode :=
  if (p =? "/opt/arduino/hardware") then Some (Directory ["arduino"; "tools"])
  else if (p =? "/opt/arduino/hardware/arduino/avr")
       then Some (Directory ["boards.txt"; "platform.txt"])
  else if (p =? "/ws/sketch.ino") then Some File
  else None.

(** A regular file sits where the built-in platform would be, and the user
    has installed version 1.8.3 of the platform. *)
Definition disk_with_stray_file (p : string) : option FsNode :=
  if (p =? "/opt/arduino/hardware/arduino/avr") then Some File
  else if (p =? "/home/dev/.arduino15/packages/arduino/hardware/avr")
       then Some (Directory ["1.8.3"])
  else if (p =? "/ws/sketch.ino") then Some File
  else None.

Definition files (file : string) : Properties.t :=
  if (file =? "/opt/arduino/hardware/arduino/avr/platform.txt") then
    [("tools.avrdude.upload.params.quiet", Js.str "-q -q");
     ("tools.avrdude.upload.params.verbose", Js.str "-v");
     ("tools.avrdude.upload.pattern", Js.str "avrdude -patmega32u4 -cavr109")]
  else if (file =? "/opt/arduino/hardware/arduino/avr/boards.txt") then
    [("uno.upload.tool", Js.str "avrdude");
     ("leonardo.upload.tool", Js.str "avrdude");
     ("leonardo.upload.use_1200bps_touch", Js.str "true");
     ("leonardo.upload.wait_for_upload_port", Js.str "true")]
  else [].

Definition env (selected : option Board) (bld : string)
    (fs : string -> option FsNode) (ports : nat -> list PortInfo)
    (open_ok : bool) : Env :=
  {| settings := ide;
     vscodeSettings := {| builder := bld;
                          logLevel := "info";
                          uploadCommand := Js.str "make upload";
                          verifyCommand := Js.str "make build" |};
     rootPath := Js.str "/ws";
     currentBoard := selected;
     path_join := posix_join;
     path_basename := posix_basename;
     EOL := String (Ascii.ascii_of_nat 10) "";
     splitArgs := split_words;
     NO_BOARD_SELECTED := "Please select the board type first.";
     fs_node := fs;
     load_file := files;
     spawn_outcome := fun _ _ => Resolved;
     serial_list := ports;
     serial_open_ok := open_ok;
     serial_stop_ok := true;
     closeSerialMonitor_result := false;
     resolveMainSketch_result := Js.str "sketch.ino" |}.

Definition ttyACM0 : PortInfo := {| comName := "/dev/ttyACM0" |}.
Definition ttyACM1 : PortInfo := {| comName := "/dev/ttyACM1" |}.
Definition ttyS0 : PortInfo := {| comName := "/dev/ttyS0" |}.

Definition ttyUSB0 : PortInfo := {| comName := "/dev/ttyUSB0" |}.

Definition steady (n : nat) : list PortInfo := [ttyS0; ttyACM0].

(** Only the renamed board answers. *)
Definition renamed (n : nat) : list PortInfo := [ttyACM1].

(** Board and adapter both vanish; the adapter is back at the second poll
    and the board, renamed, at the third. *)
Definition adapter_flaps (n : nat) : list PortInfo :=
  match n with
  | O => [ttyS0]
  | S O => [ttyS0; ttyUSB0]
  | S (S _) => [ttyS0; ttyUSB0; ttyACM1]
  end.

(** The board is on ttyACM0 when the upload starts and never comes back
    after the reset. *)
Definition board_lost (n : nat) : list PortInfo :=
  match n with
  | O => [ttyS0; ttyACM0]
  | S _ => [ttyS0]
  end.

(** The board leaves ttyACM0 and is back on ttyACM0 at the second poll. *)
Definition board_back (n : nat) : list PortInfo :=
  match n with
  | O => [ttyS0]
  | S _ => [ttyS0; ttyACM0]
  end.

(** The board comes back as ttyACM1 at the first poll. *)
Definition board_moved (n : nat) : list PortInfo :=
  match n with
  | O => [ttyS0; ttyACM0]
  | S _ => [ttyS0; ttyACM1]
  end.

Definition project (out : Js.value) : World :=
  {| listening := true;
     list_calls := 0;
     dc := {| sketch := Js.str "sketch.ino";
              port := Js.str "/dev/ttyACM0";
              output := out |} |}.

Definition standard : Env := env (Some leonardo) "arduino-builder" disk steady true.

(** Nothing at the built-in path; the user has installed versions 1.8.3 and
    1.6.23 of the platform, listed in that order. *)
Definition disk_user_platform (p : string) : option FsNode :=
  if (p =? "/home/dev/.arduino15/packages/arduino/hardware/avr")
  then Some (Directory ["1.8.3"; "1.6.23"])
  else if (p =? "/ws/sketch.ino") then Some File
  else None.

(** No platform at all. *)
Definition disk_bare (p : string) : option FsNode :=
  if (p =? "/ws/sketch.ino") then Some File else None.

(** Two example copies are already there. *)
Definition disk_with_examples (p : string) : option FsNode :=
  if (p =? "/home/dev/Arduino/generated_examples/Blink") then Some (Directory ["Blink.ino"])
  else if (p =? "/home/dev/Arduino/generated_examples/Blink_1") then Some File
  else None.

(** The cores of the built-in platform. *)
Definition disk_with_cores (p : string) : option FsNode :=
  if (p =? "/opt/arduino/hardware/arduino/avr/cores")
  then Some (Directory ["arduino"; "tiny"])
  else None.

(** The board is gone for good. *)
Definition gone (n : nat) : list PortInfo := [ttyS0].

(** The installation seen from another workspace: [root] is the workspace
    folder, [found] what the search for the main sketch finds, and
    [monitor_open] tells whether the serial monitor was open. *)
Definition workspace (root found : Js.value) (bld : string) (monitor_open : bool) : Env :=
  {| settings := ide;
     vscodeSettings := {| builder := bld;
                          logLevel := "info";
                          uploadCommand := Js.str "make upload";
                          verifyCommand := Js.str "make build" |};
     rootPath := root;
     currentBoard := Some leonardo;
     path_join := posix_join;
     path_basename := posix_basename;
     EOL := String (Ascii.ascii_of_nat 10) "";
     splitArgs := split_words;
     NO_BOARD_SELECTED := "Please select the board type first.";
     fs_node := disk;
     load_file := files;
     spawn_outcome := fun _ _ => Resolved;
     serial_list := steady;
     serial_open_ok := true;
     serial_stop_ok := true;
     closeSerialMonitor_result := monitor_open;
     resolveMainSketch_result := found |}.

(** A project whose arduino.json names no port. *)
Definition project_without_port : World :=
  {| listening := true;
     list_calls := 0;
     dc := {| sketch := Js.str "sketch.ino"; port := Js.undefined; output := Js.str "build" |} |}.

(** A project whose arduino.json names no sketch. *)
Definition project_without_sketch : World :=
  {| listening := true;
     list_calls := 0;
     dc := {| sketch := Js.undefined; port := Js.str "/dev/ttyACM0";
              output := Js.str "build" |} |}.

End Demo.

(** ** Vocabulary of the statements *)

(** A run reports success when its last message is [arduinoChannel.end]. *)
Definition reports_success {A : Type} (o : Out A) : bool :=
  match last (events o) ChannelShow with
  | ChannelEnd _ => true
  | _ => false
  end.

(** The two directories that [resolvePackagePath] looks at. *)
Definition builtInPath (env : Env) (b : Board) : string :=
  path_join env [defaultPackagePath (settings env); getPackageName b; architecture b].

Definition externalPath (env : Env) (b : Board) : string :=
  path_join env [packagePath (settings env); "packages"; getPackageName b;
                 "hardware"; architecture b].

(** Calls that close or reopen the serial monitor, enumerate or open serial
    devices, wait, or start a process. *)
Definition touches_device (e : Event) : bool :=
  match e with
  | CloseSerialMonitor _ | OpenSerialMonitor
  | SerialList | SerialOpen _ _ | SerialStop | Delay _
  | Spawn _ _ _ _ => true
  | _ => false
  end.

Definition is_spawn (e : Event) : bool :=
  match e with
  | Spawn _ _ _ _ => true
  | _ => false
  end.

(** Every [SerialOpen] of the trace has [SerialStop] as its next call. *)
Fixpoint opens_are_stopped (evs : list Event) : bool :=
  match evs with
  | [] => true
  | SerialOpen _ _ :: rest =>
      match rest with
      | SerialStop :: _ => opens_are_stopped rest
      | _ => false
      end
  | _ :: rest => opens_are_stopped rest
  end.

(** The calls made by the polling loops. *)
Definition is_poll (e : Event) : bool :=
  match e with
  | SerialList | Delay _ => true
  | _ => false
  end.

(** The enumerations met by a wait that starts in [w]: the [j]-th poll, and
    the enumeration the [j]-th poll is compared with, which is the snapshot
    [before] for the first poll and the poll just before it afterwards. *)
Definition poll (env : Env) (w : World) (j : nat) : list PortInfo :=
  serial_list env (j + list_calls w).

Definition previous (env : Env) (before : list PortInfo) (w : World) (j : nat)
    : list PortInfo :=
  match j with
  | O => before
  | S i => poll env w i
  end.

(** [p] is the first device of [now] whose name no device of [old] has. *)
Definition first_appeared (old now : list PortInfo) (p : PortInfo) : Prop :=
  exists earlier later,
    now = (earlier ++ p :: later)%list
    /\ (forall q, In q earlier -> In (comName q) (map comName old))
    /\ ~ In (comName p) (map comName old).

(** Every device of [now] has the name of a device of [old]. *)
Definition nothing_appeared (old now : list PortInfo) : Prop :=
  forall q, In q now -> In (comName q) (map comName old).

(** The properties that ask for the 1200 bps touch and for the wait. *)
Definition touch_and_wait : Properties.t :=
  [("upload.use_1200bps_touch", Js.str "true");
   ("upload.wait_for_upload_port", Js.str "true")].

(** The milliseconds spent in [util.delay]. *)
Fixpoint total_delay (evs : list Event) : Z :=
  match evs with
  | [] => 0
  | Delay ms :: rest => ms + total_delay rest
  | _ :: rest => total_delay rest
  end.

Definition is_pause (e : Event) : bool :=
  match e with
  | PauseListening => true
  | _ => false
  end.

Definition is_open_monitor (e : Event) : bool :=
  match e with
  | OpenSerialMonitor => true
  | _ => false
  end.

(** Calls on the handle of the serial port. *)
Definition is_serial_handle (e : Event) : bool :=
  match e with
  | SerialOpen _ _ | SerialStop => true
  | _ => false
  end.

(** The state [w] with another output folder in the device context. *)
Definition with_output (w : World) (out : Js.value) : World :=
  {| listening := listening w;
     list_calls := list_calls w;
     dc := {| sketch := sketch (dc w); port := port (dc w); output := out |} |}.

(** Something, a file or a directory, has the name [p]. *)
Definition taken (env : Env) (p : string) : bool :=
  fileExistsSync env p || directoryExistsSync env p.

(** The names that [tmpName] tries, in order: name, name_1, name_2, ... *)
Definition candidate (name : string) (k : nat) : string :=
  match k with
  | O => name
  | S _ => name ++ "_" ++ Js.string_of_Z (Z.of_nat k)
  end.

(** The package specifier handed to the installer: the name, then the
    architecture and the version that are given, separated by colons. *)
Definition specifier (name : string) (parts : list string) : string :=
  String.concat ":" (name :: filter (fun part => negb (part =? "")) parts).

(** The closing message of an install: the end of the task or its error. *)
Definition closes_install (e : Event) : Prop :=
  match e with
  | ChannelEnd _ | ChannelError _ => True
  | _ => False
  end.

(** The entries of an include path, none when [includePath] is missing. *)
Definition entries_of (includePath : option (list string)) : list string :=
  match includePath with
  | Some l => l
  | None => []
  end.

(** Some entry of [l] is the path [p], up to [canon]. *)
Definition listed (canon : string -> string) (l : list string) (p : string) : Prop :=
  exists e, In e l /\ canon e = canon p.

(** ** Running the monad in proofs *)

Ltac run_m :=
  cbv beta iota zeta delta
    [bind ret emit throw get_dc try_catch try_finally then_ when delay spawn
     SerialPortCtrl_list SerialPortCtrl_open SerialPortCtrl_stop
     pauseListening resumeListening closeSerialMonitor openSerialMonitor
     saveAll resolveMainSketch loadFile lstatSync readdirSync
     js_path_join js_path_basename the_board
     res events world].

Ltac env_simpl :=
  cbn [exiting with_spawn_outcome spawn_outcome EOL settings vscodeSettings
       rootPath currentBoard path_join path_basename splitArgs NO_BOARD_SELECTED
       fs_node load_file serial_list serial_open_ok serial_stop_ok
       closeSerialMonitor_result resolveMainSketch_result].

(** ** Exit codes of the installer *)

Lemma spawn_exit_failure (code : Z) :
  code <> 0%Z -> spawn_exit code = Rejected (Some code).
Proof.
  intros H. unfold spawn_exit.
  destruct (Z.eqb_spec code 0); [contradiction | reflexivity].
Qed.

Lemma code_is_spawn_rejected (code n : Z) :
  code_is (SpawnRejected (Some code)) n = (code =? n)%Z.
Proof. reflexivity. Qed.

(** C1.  For a board package and for a library, the run in which the
    installer exits with code 1 is the same as the run in which it exits
    with code 0: same result, same messages on the channel, the last of
    them the success message.  With any other code the run differs from
    the successful one in its last message only, which is the error
    message carrying that code; nothing is thrown to the caller. *)
Theorem install_exit_code_1_is_success
    (env : Env) (name arch version : string) (showOutput : bool) (w : World)
    (code : Z) (Hnot0 : code <> 0%Z) (Hnot1 : code <> 1%Z) :
  let failure := ChannelError ("Exit with code=" ++ Js.string_of_Z code ++ EOL env) in
  (ArduinoApp.installBoard (exiting env 1) name arch version showOutput w
     = ArduinoApp.installBoard (exiting env 0) name arch version showOutput w
   /\ exists before msg,
       events (ArduinoApp.installBoard (exiting env 0) name arch version showOutput w)
         = (before ++ [ChannelEnd msg])%list
       /\ ArduinoApp.installBoard (exiting env code) name arch version showOutput w
         = mkOut (Ok tt) (before ++ [failure])%list w)
  /\
  (ArduinoApp.installLibrary (exiting env 1) name version showOutput w
     = ArduinoApp.installLibrary (exiting env 0) name version showOutput w
   /\ exists before msg,
       events (ArduinoApp.installLibrary (exiting env 0) name version showOutput w)
         = (before ++ [ChannelEnd msg])%list
       /\ ArduinoApp.installLibrary (exiting env code) name version showOutput w
         = mkOut (Ok tt) (before ++ [failure])%list w).
Proof.
  intros failure. subst failure.
  assert (Hc1 : (code =? 1)%Z = false) by (apply Z.eqb_neq; exact Hnot1).
  pose proof (spawn_exit_failure code Hnot0) as Hc.
  split.
  - unfold ArduinoApp.installBoard.
    destruct ((name =? "dummy") && negb (Js.truthy (Js.str arch))
                && negb (Js.truthy (Js.str version)));
      run_m; env_simpl; rewrite Hc;
      change (spawn_exit 1) with (Rejected (Some 1%Z));
      change (spawn_exit 0) with Resolved;
      cbv beta iota; rewrite !code_is_spawn_rejected, Hc1;
      change (1 =? 1)%Z with true; cbv beta iota; cbn [app];
      (split; [reflexivity |]);
      eexists [_; _; _], _; split; reflexivity.
  - unfold ArduinoApp.installLibrary.
    destruct ((name =? "dummy") && negb (Js.truthy (Js.str version)));
      run_m; env_simpl; rewrite Hc;
      change (spawn_exit 1) with (Rejected (Some 1%Z));
      change (spawn_exit 0) with Resolved;
      cbv beta iota; rewrite !code_is_spawn_rejected, Hc1;
      change (1 =? 1)%Z with true; cbv beta iota; cbn [app];
      (split; [reflexivity |]);
      eexists [_; _; _], _; split; reflexivity.
Qed.


(** ** Index refresh *)

(** C6, as stated, fails: an install with the empty package name (and no
    architecture, no version) announces the installation of a package, not
    the update of the index files; the same holds for a library. *)
Lemma empty_name_is_not_index_refresh :
  ArduinoApp.installBoard (exiting Demo.standard 0) "" "" "" true (Demo.project Js.undefined)
    = mkOut (Ok tt)
        [ChannelShow;
         ChannelStart "Install package - ...";
         Spawn (Js.str "/opt/arduino/arduino") true ["--install-boards"; ""] None;
         ChannelEnd ("Installed board package - " ++ EOL Demo.standard)]
        (Demo.project Js.undefined)
  /\ ArduinoApp.installLibrary (exiting Demo.standard 0) "" "" true (Demo.project Js.undefined)
    = mkOut (Ok tt)
        [ChannelShow;
         ChannelStart "Install library - ";
         Spawn (Js.str "/opt/arduino/arduino") true ["--install-library"; ""] None;
         ChannelEnd ("Installed library - " ++ EOL Demo.standard)]
        (Demo.project Js.undefined).
Proof. split; reflexivity. Qed.

(** C6, amended.  The index refresh is the install of the package (or
    library) named "dummy" with no architecture and no version: the channel
    then announces the update of the index files and, on success, that they
    were updated.  Whether a run reports success depends on the exit code
    alone, in the same way for a refresh and for any other install: codes 0
    and 1 are a success, every other code is reported with the code. *)
Theorem dummy_install_refreshes_index
    (env : Env) (showOutput : bool) (w : World) (code : Z) :
  let verdict (done : string) :=
    if ((code =? 0) || (code =? 1))%Z then ChannelEnd done
    else ChannelError ("Exit with code=" ++ Js.string_of_Z code ++ EOL env) in
  ArduinoApp.installBoard (exiting env code) "dummy" "" "" showOutput w
    = mkOut (Ok tt)
        [ChannelShow;
         ChannelStart "Update package index files...";
         Spawn (Js.str (commandPath (settings env))) showOutput
               ["--install-boards"; "dummy"] None;
         verdict "Updated package index files."]
        w
  /\ ArduinoApp.installLibrary (exiting env code) "dummy" "" showOutput w
    = mkOut (Ok tt)
        [ChannelShow;
         ChannelStart "Update library index files...";
         Spawn (Js.str (commandPath (settings env))) showOutput
               ["--install-library"; "dummy"] None;
         verdict "Updated library index files."]
        w
  /\ (forall name arch version,
        reports_success (ArduinoApp.installBoard (exiting env code) name arch version showOutput w)
          = ((code =? 0) || (code =? 1))%Z)
  /\ (forall name version,
        reports_success (ArduinoApp.installLibrary (exiting env code) name version showOutput w)
          = ((code =? 0) || (code =? 1))%Z).
Proof.
  intros verdict. subst verdict.
  assert (Hrun : spawn_exit code = Resolved /\ (code =? 0)%Z = true
                 \/ spawn_exit code = Rejected (Some code) /\ (code =? 0)%Z = false).
  { unfold spawn_exit. destruct (code =? 0)%Z; [left | right]; split; reflexivity. }
  repeat split.
  - unfold ArduinoApp.installBoard. cbn [String.eqb Ascii.eqb Bool.eqb Js.truthy negb andb].
    run_m; env_simpl.
    destruct Hrun as [[-> ->] | [-> ->]]; cbv beta iota.
    + reflexivity.
    + rewrite code_is_spawn_rejected. cbn [orb].
      destruct (code =? 1)%Z; reflexivity.
  - unfold ArduinoApp.installLibrary. cbn [String.eqb Ascii.eqb Bool.eqb Js.truthy negb andb].
    run_m; env_simpl.
    destruct Hrun as [[-> ->] | [-> ->]]; cbv beta iota.
    + reflexivity.
    + rewrite code_is_spawn_rejected. cbn [orb].
      destruct (code =? 1)%Z; reflexivity.
  - intros name arch version. unfold ArduinoApp.installBoard, reports_success.
    destruct ((name =? "dummy") && negb (Js.truthy (Js.str arch))
                && negb (Js.truthy (Js.str version)));
      run_m; env_simpl;
      destruct Hrun as [[-> ->] | [-> ->]]; cbv beta iota;
      try reflexivity;
      rewrite code_is_spawn_rejected; cbn [orb];
      destruct (code =? 1)%Z; reflexivity.
  - intros name version. unfold ArduinoApp.installLibrary, reports_success.
    destruct ((name =? "dummy") && negb (Js.truthy (Js.str version)));
      run_m; env_simpl;
      destruct Hrun as [[-> ->] | [-> ->]]; cbv beta iota;
      try reflexivity;
      rewrite code_is_spawn_rejected; cbn [orb];
      destruct (code =? 1)%Z; reflexivity.
Qed.

(** Exit code 2, for version 1.6.23 of the AVR platform and of a library. *)
Lemma install_exit_code_1_is_success_witness :
  (2 <> 0)%Z /\ (2 <> 1)%Z
  /\ ArduinoApp.installBoard (exiting Demo.standard 1) "arduino" "avr" "1.6.23" true
       (Demo.project Js.undefined)
     = ArduinoApp.installBoard (exiting Demo.standard 0) "arduino" "avr" "1.6.23" true
         (Demo.project Js.undefined)
  /\ ArduinoApp.installLibrary (exiting Demo.standard 1) "arduino" "1.6.23" true
       (Demo.project Js.undefined)
     = ArduinoApp.installLibrary (exiting Demo.standard 0) "arduino" "1.6.23" true
         (Demo.project Js.undefined).
Proof.
  assert (H0 : (2 <> 0)%Z) by lia.
  assert (H1 : (2 <> 1)%Z) by lia.
  split; [exact H0 |]. split; [exact H1 |].
  destruct (install_exit_code_1_is_success Demo.standard "arduino" "avr" "1.6.23" true
              (Demo.project Js.undefined) 2 H0 H1) as [[Hb _] [Hl _]].
  split; [exact Hb | exact Hl].
Defined.

Example installBoard_exit_2 :
  ArduinoApp.installBoard (exiting Demo.standard 2) "arduino" "avr" "1.6.23" true
    (Demo.project Js.undefined)
  = mkOut (Ok tt)
      [ChannelShow;
       ChannelStart "Install package - arduino...";
       Spawn (Js.str "/opt/arduino/arduino") true
             ["--install-boards"; "arduino:avr:1.6.23"] None;
       ChannelError ("Exit with code=2" ++ EOL Demo.standard)]
      (Demo.project Js.undefined).
Proof. reflexivity. Qed.

(** ** Platform directory *)

(** Whatever sits at the built-in path, a directory or not, the built-in
    path is the answer: the test [if (stat.isDirectory)] looks at the method
    itself and not at what it returns. *)
Lemma resolvePackagePath_builtin_present (env : Env) (b : Board) (node : FsNode) (w : World) :
  currentBoard env = Some b ->
  fs_node env (builtInPath env b) = Some node ->
  ArduinoApp.resolvePackagePath env w = mkOut (Ok (Some (builtInPath env b))) [] w.
Proof.
  unfold builtInPath. intros Hb Hnode.
  unfold ArduinoApp.resolvePackagePath. run_m. rewrite Hb. cbv beta iota.
  rewrite Hnode. destruct node; reflexivity.
Qed.

(** With nothing at the built-in path, the first entry of the user-installed
    platform directory is the version. *)
Lemma resolvePackagePath_external (env : Env) (b : Board) (version : string)
    (others : list string) (w : World) :
  currentBoard env = Some b ->
  fs_node env (builtInPath env b) = None ->
  fs_node env (externalPath env b) = Some (Directory (version :: others)) ->
  ArduinoApp.resolvePackagePath env w
    = mkOut (Ok (Some (path_join env [externalPath env b; version]))) [] w.
Proof.
  unfold builtInPath, externalPath. intros Hb Hnone Hext.
  unfold ArduinoApp.resolvePackagePath. run_m. rewrite Hb. cbv beta iota.
  rewrite Hnone. cbv beta iota. rewrite Hext. reflexivity.
Qed.

(** The resolution reads the disk only: no call is recorded, the state is
    left as it was, and the loop-free body always ends. *)
Lemma resolvePackagePath_silent (env : Env) (w : World) :
  exists r, ArduinoApp.resolvePackagePath env w = mkOut r [] w /\ r <> Diverged.
Proof.
  unfold ArduinoApp.resolvePackagePath. run_m.
  destruct (currentBoard env) as [b |]; cbv beta iota.
  - destruct (fs_node env (path_join env [defaultPackagePath (settings env);
                                          getPackageName b; architecture b]))
      as [[| entries] |]; cbv beta iota;
      try (eexists; split; [reflexivity | discriminate]).
    destruct (fs_node env (path_join env [packagePath (settings env); "packages";
                                          getPackageName b; "hardware"; architecture b]))
      as [[| [| version others]] |]; cbv beta iota;
      eexists; split; try reflexivity; discriminate.
  - eexists; split; [reflexivity | discriminate].
Qed.

(** C5.  A regular file at the built-in path and version 1.8.3 installed by
    the user: the resolution answers the built-in path, where the claim
    expects the user-installed directory. *)
Theorem builtin_path_wins_without_being_a_directory :
  let env := Demo.env (Some Demo.leonardo) "arduino-builder"
                      Demo.disk_with_stray_file Demo.steady true in
  fs_node env (builtInPath env Demo.leonardo) = Some File
  /\ fs_node env (externalPath env Demo.leonardo) = Some (Directory ["1.8.3"])
  /\ ArduinoApp.resolvePackagePath env (Demo.project Js.undefined)
     = mkOut (Ok (Some "/opt/arduino/hardware/arduino/avr")) [] (Demo.project Js.undefined).
Proof. repeat split. Qed.

(** ** Verify without a board *)

(** C9.  With no board selected, [verify] notifies the user error
    NO_BOARD_SELECTED and returns at once: that notification is the only
    call made, so no process is spawned, and the state is untouched. *)
Theorem verify_without_board_spawns_nothing
    (env : Env) (output_ : string) (w : World)
    (Hnone : currentBoard env = None) :
  ArduinoApp.verify env output_ w
    = mkOut (Ok None) [NotifyUserError "getBoardBuildString" (NO_BOARD_SELECTED env)] w.
Proof.
  unfold ArduinoApp.verify, ArduinoApp.getBoardBuildString.
  rewrite Hnone. reflexivity.
Qed.

Lemma verify_without_board_spawns_nothing_witness :
  ArduinoApp.verify (Demo.env None "arduino-builder" Demo.disk Demo.steady true) ""
    (Demo.project Js.undefined)
  = mkOut (Ok None)
      [NotifyUserError "getBoardBuildString" "Please select the board type first."]
      (Demo.project Js.undefined).
Proof.
  exact (verify_without_board_spawns_nothing
           (Demo.env None "arduino-builder" Demo.disk Demo.steady true) ""
           (Demo.project Js.undefined) eq_refl).
Defined.

(** ** Verify strategies *)

Lemma spawn_exit_cases (code : Z) :
  spawn_exit code = Resolved /\ (code =? 0)%Z = true
  \/ spawn_exit code = Rejected (Some code) /\ (code =? 0)%Z = false.
Proof.
  unfold spawn_exit. destruct (code =? 0)%Z; [left | right]; split; reflexivity.
Qed.

(** C8.  Each of the three verify strategies spawns its process and then
    returns a boolean: [true] after exit code 0, with the closing message on
    the channel, and [false] after any other exit code, with the message
    "Exit with code=<code>" on the channel.  The rejection of the spawn is
    never passed on to the caller.  (The workspace root and the sketch are
    strings, as [verify] has made sure before it dispatches.) *)
Theorem verify_strategies_return_the_verdict
    (env : Env) (boardDescriptor output_ : string) (w : World) (code : Z)
    (root sk : string)
    (Hroot : rootPath env = Js.str root) (Hsketch : sketch (dc w) = Js.str sk) :
  let verdict :=
    if (code =? 0)%Z
    then ChannelEnd ("Finished verify sketch - " ++ sk ++ EOL env)
    else ChannelError ("Exit with code=" ++ Js.string_of_Z code ++ EOL env) in
  let settled (o : Out bool) :=
    res o = Ok (code =? 0)%Z
    /\ world o = w
    /\ exists before cmd args cwd,
         events o = (before ++ [Spawn cmd true args cwd; verdict])%list in
  settled (ArduinoApp.verifyByCommand (exiting env code) boardDescriptor output_ w)
  /\ settled (ArduinoApp.verifyByArduinoBuilder (exiting env code) boardDescriptor output_ w)
  /\ settled (ArduinoApp.verifyByArduinoIde (exiting env code) boardDescriptor output_ w).
Proof.
  intros verdict settled. subst verdict settled. cbv beta.
  repeat split.
  all: try (unfold ArduinoApp.verifyByCommand).
  all: try (unfold ArduinoApp.verifyByArduinoBuilder).
  all: try (unfold ArduinoApp.verifyByArduinoIde).
  all: run_m; env_simpl; rewrite ?Hroot, ?Hsketch; cbn [strings_of].
  all: try (destruct (Js.or (Js.str output_) (output (dc w))) as [| | out];
            cbn [Js.truthy]; [| | destruct (negb (out =? ""))]; cbv beta iota).
  all: destruct (spawn_exit_cases code) as [[Hs Hz] | [Hs Hz]];
       rewrite ?Hs, ?Hz; cbv beta iota.
  all: try reflexivity.
  all: cbn [app exit_message exn_code Js.code_to_string Js.to_string];
       env_simpl.
  all: try (eexists [_; _], _, _, _; reflexivity).
  all: try (eexists [_; _; _], _, _, _; reflexivity).
  all: try (eexists [_; _; _; _], _, _, _; reflexivity).
Qed.

(** The builder exits with code 3 on the demo project. *)
Lemma verify_strategies_return_the_verdict_witness :
  res (ArduinoApp.verifyByArduinoBuilder (exiting Demo.standard 3) "arduino:avr:leonardo" ""
         (Demo.project Js.undefined))
  = Ok false.
Proof.
  exact (proj1 (proj1 (proj2 (verify_strategies_return_the_verdict
                                Demo.standard "arduino:avr:leonardo" ""
                                (Demo.project Js.undefined) 3 "/ws" "sketch.ino"
                                eq_refl eq_refl)))).
Defined.

(** ** Upload by pattern without an output folder *)

Lemma resolvePackagePath_needs_board (env : Env) (w : World) :
  currentBoard env = None ->
  ArduinoApp.resolvePackagePath env w
    = mkOut (Throw (TypeError "Cannot read properties of null")) [] w.
Proof.
  intros Hb. unfold ArduinoApp.resolvePackagePath. run_m. rewrite Hb. reflexivity.
Qed.

(** C10.  With no output folder in the device context, [uploadByPattern]
    leaves the state alone and makes no call that closes the serial
    monitor, enumerates or opens a serial device, waits or spawns a process.
    When the platform directory resolves, it loads platform.txt and
    boards.txt from it, shows "No output folder specified. Cannot find
    binary." and returns. *)
Theorem uploadByPattern_without_output_stops_early
    (env : Env) (boardDescriptor : string) (w : World)
    (Hout : Js.truthy (output (dc w)) = false) :
  let o := ArduinoApp.uploadByPattern env boardDescriptor w in
  world o = w
  /\ existsb touches_device (events o) = false
  /\ forall packageDir,
       res (ArduinoApp.resolvePackagePath env w) = Ok (Some packageDir) ->
       o = mkOut (Ok tt)
             [LoadFile (path_join env [packageDir; "platform.txt"]);
              LoadFile (path_join env [packageDir; "boards.txt"]);
              ShowErrorMessage "No output folder specified. Cannot find binary."]
             w.
Proof.
  cbv zeta. unfold ArduinoApp.uploadByPattern.
  destruct (currentBoard env) as [b |] eqn:Hb.
  - destruct (resolvePackagePath_silent env w) as [r [Hr Hend]].
    run_m. rewrite Hr, Hb, Hout. cbv beta iota.
    destruct r as [[packageDir |] | e |]; cbv beta iota; cbn [negb].
    + repeat split. intros dir Hdir. inversion Hdir. reflexivity.
    + repeat split. intros dir Hdir. discriminate Hdir.
    + repeat split. intros dir Hdir. discriminate Hdir.
    + contradiction.
  - run_m. rewrite (resolvePackagePath_needs_board env w Hb). cbv beta iota.
    repeat split. intros dir Hdir. discriminate Hdir.
Qed.

Lemma uploadByPattern_without_output_stops_early_witness :
  ArduinoApp.uploadByPattern Demo.standard "arduino:avr:leonardo" (Demo.project Js.undefined)
  = mkOut (Ok tt)
      [LoadFile "/opt/arduino/hardware/arduino/avr/platform.txt";
       LoadFile "/opt/arduino/hardware/arduino/avr/boards.txt";
       ShowErrorMessage "No output folder specified. Cannot find binary."]
      (Demo.project Js.undefined).
Proof.
  exact (proj2 (proj2 (uploadByPattern_without_output_stops_early
                         Demo.standard "arduino:avr:leonardo" (Demo.project Js.undefined)
                         eq_refl))
               "/opt/arduino/hardware/arduino/avr" eq_refl).
Defined.

(** ** The wait that times out *)

(** C2.  The board is on /dev/ttyACM0, is reset by the 1200 bps touch and
    never shows up again.  The wait makes its 40 polls and returns
    [undefined]; [prepareUploadPort] replaces [null] only, so it hands
    [undefined] on instead of the configured port, and [uploadByPattern]
    throws a [TypeError] at [actualUploadPort.startsWith] before any process
    is spawned. *)
Theorem timed_out_wait_yields_undefined_port :
  let env := Demo.env (Some Demo.leonardo) "arduino-builder" Demo.disk Demo.board_lost true in
  let w := Demo.project (Js.str "build") in
  let negotiated := ArduinoApp.prepareUploadPort env touch_and_wait false w in
  let uploaded := ArduinoApp.uploadByPattern env "arduino:avr:leonardo" w in
  res negotiated = Ok Js.undefined
  /\ res negotiated <> Ok (port (dc w))
  /\ list_calls (world negotiated) = 41%nat
  /\ res uploaded
     = Throw (TypeError "Cannot read properties of undefined (reading 'startsWith')")
  /\ existsb is_spawn (events uploaded) = false.
Proof.
  cbv zeta. repeat split; try reflexivity.
  vm_compute. discriminate.
Qed.

(** The board that comes back under another name is found at the first poll. *)
Example board_moved_is_found :
  res (ArduinoApp.prepareUploadPort
         (Demo.env (Some Demo.leonardo) "arduino-builder" Demo.disk Demo.board_moved true)
         touch_and_wait false (Demo.project (Js.str "build")))
  = Ok (Js.str "/dev/ttyACM1").
Proof. reflexivity. Qed.

(** ** The hot-plug listener *)

(** C4.  The upload by pattern touches /dev/ttyACM0 and the open of the
    port fails.  [stop] runs, the failure leaves [prepareUploadPort],
    [uploadByPattern] and [upload], and [resumeListening] is never called:
    the listener stays paused. *)
Theorem listener_stays_paused_when_strategy_throws :
  ArduinoApp.upload
    (Demo.env (Some Demo.leonardo) "arduino-builder" Demo.disk Demo.steady false)
    (Demo.project (Js.str "build"))
  = mkOut (Throw SerialFailure)
      [PauseListening;
       LoadFile "/opt/arduino/hardware/arduino/avr/platform.txt";
       LoadFile "/opt/arduino/hardware/arduino/avr/boards.txt";
       CloseSerialMonitor (Js.str "/dev/ttyACM0");
       SerialList;
       SerialOpen (Js.str "/dev/ttyACM0") 1200;
       SerialStop]
      {| listening := false;
         list_calls := 1;
         dc := dc (Demo.project (Js.str "build")) |}.
Proof. reflexivity. Qed.

(** The same happens when the wait of C2 times out. *)
Example listener_stays_paused_after_timeout :
  let o := ArduinoApp.upload
             (Demo.env (Some Demo.leonardo) "arduino-builder" Demo.disk Demo.board_lost true)
             (Demo.project (Js.str "build")) in
  res o = Throw (TypeError "Cannot read properties of undefined (reading 'startsWith')")
  /\ listening (world o) = false
  /\ existsb (fun e => match e with ResumeListening => true | _ => false end) (events o)
     = false.
Proof. cbv zeta. repeat split. Qed.

(** When the strategy returns, the listener is resumed. *)
Example listener_resumed_after_upload :
  let o := ArduinoApp.upload
             (Demo.env (Some Demo.leonardo) "arduino-builder" Demo.disk Demo.board_moved true)
             (Demo.project (Js.str "build")) in
  res o = Ok tt
  /\ listening (world o) = true
  /\ last (events o) ChannelShow = ResumeListening.
Proof. cbv zeta. repeat split. Qed.

(** ** The 1200 bps touch *)

Lemma waitForUploadPort_loop_polls (env : Env) (fuel : nat) (uploadPort : Js.value) :
  forall (before : list PortInfo) (elapsed : Z) (w : World),
    forallb is_poll
      (events (ArduinoApp.waitForUploadPort_loop env fuel uploadPort before elapsed w))
    = true.
Proof.
  induction fuel as [| fuel IH]; intros before elapsed w;
    cbn [ArduinoApp.waitForUploadPort_loop];
    destruct (elapsed <? 10000)%Z; try reflexivity.
  run_m.
  destruct (ArduinoApp.first_new before (serial_list env (list_calls w))); [reflexivity |].
  cbv beta iota.
  destruct ((5000 <=? elapsed + 250)%Z
            && ArduinoApp.some_comName (serial_list env (list_calls w)) uploadPort);
    [reflexivity |].
  match goal with
  | |- context [ArduinoApp.waitForUploadPort_loop env fuel uploadPort ?b ?e ?w'] =>
      specialize (IH b e w');
      destruct (ArduinoApp.waitForUploadPort_loop env fuel uploadPort b e w')
        as [r ev w2]
  end.
  cbn [events] in IH. cbn [events app forallb is_poll andb]. exact IH.
Qed.

Lemma opens_are_stopped_after_polls (evs rest : list Event) :
  forallb is_poll evs = true ->
  opens_are_stopped (evs ++ rest) = opens_are_stopped rest.
Proof.
  induction evs as [| e evs IH]; intros Hpolls; [reflexivity |].
  cbn [forallb] in Hpolls. apply andb_prop in Hpolls. destruct Hpolls as [He Hevs].
  destruct e; try discriminate He; cbn [app opens_are_stopped]; exact (IH Hevs).
Qed.

Lemma opens_are_stopped_tail (e : Event) (evs : list Event) :
  opens_are_stopped (e :: evs) = true -> opens_are_stopped evs = true.
Proof.
  destruct e; cbn [opens_are_stopped]; try (intros H; exact H).
  destruct evs as [| [] evs]; intros H; try discriminate H. exact H.
Qed.

Lemma opens_are_stopped_sound (evs : list Event) :
  opens_are_stopped evs = true ->
  forall pre p baud post,
    evs = (pre ++ SerialOpen p baud :: post)%list ->
    exists post', post = SerialStop :: post'.
Proof.
  intros Hck pre. revert evs Hck.
  induction pre as [| e pre IH]; intros evs Hck p baud post Hevs; subst evs.
  - cbn [app opens_are_stopped] in Hck.
    destruct post as [| [] post]; try discriminate Hck.
    eexists. reflexivity.
  - cbn [app] in Hck. apply opens_are_stopped_tail in Hck.
    exact (IH _ Hck p baud post eq_refl).
Qed.

Lemma prepareUploadPort_opens_are_stopped
    (env : Env) (uploadProperties : Properties.t) (verbose : bool) (w : World) :
  opens_are_stopped
    (events (ArduinoApp.prepareUploadPort env uploadProperties verbose w)) = true.
Proof.
  unfold ArduinoApp.prepareUploadPort, ArduinoApp.waitForUploadPort. run_m.
  destruct (Properties.get uploadProperties "upload.use_1200bps_touch" === Js.str "true");
    [| reflexivity].
  cbv beta iota.
  destruct (ArduinoApp.some_comName (serial_list env (list_calls w)) (port (dc w)));
    destruct verbose; cbv beta iota;
    destruct (serial_open_ok env); destruct (serial_stop_ok env); cbv beta iota;
    try reflexivity;
    destruct (Properties.get uploadProperties "upload.wait_for_upload_port"
              === Js.str "true");
    cbv beta iota; try reflexivity.
  all: match goal with
       | |- context [ArduinoApp.waitForUploadPort_loop ?en ?f ?u ?b ?e ?w'] =>
           pose proof (waitForUploadPort_loop_polls en f u b e w') as Hpolls;
           destruct (ArduinoApp.waitForUploadPort_loop en f u b e w')
             as [[a | ex |] ev w2]
       end.
  all: cbn [events] in Hpolls; cbv beta iota; cbn [events app opens_are_stopped].
  all: rewrite <- ?app_assoc; rewrite ?(opens_are_stopped_after_polls _ _ Hpolls).
  all: try reflexivity.
  all: rewrite ?app_nil_r;
       rewrite <- (app_nil_r ev), (opens_are_stopped_after_polls _ _ Hpolls);
       reflexivity.
Qed.

(** C7.  In [prepareUploadPort], whatever the properties, the devices and
    the outcome of the open, an open of the serial port is followed at once
    by [stop]: no other call comes between them and [stop] is not skipped
    when the open fails. *)
Theorem touch_open_is_followed_by_stop
    (env : Env) (uploadProperties : Properties.t) (verbose : bool) (w : World)
    (pre post : list Event) (p : Js.value) (baud : Z)
    (Hopen : events (ArduinoApp.prepareUploadPort env uploadProperties verbose w)
             = (pre ++ SerialOpen p baud :: post)%list) :
  exists post', post = SerialStop :: post'.
Proof.
  exact (opens_are_stopped_sound _
           (prepareUploadPort_opens_are_stopped env uploadProperties verbose w)
           pre p baud post Hopen).
Qed.

(** The open of /dev/ttyACM0 fails: [stop] is the last call and the failure
    of the open is what the caller sees. *)
Lemma touch_open_is_followed_by_stop_witness :
  ArduinoApp.prepareUploadPort
    (Demo.env (Some Demo.leonardo) "arduino-builder" Demo.disk Demo.steady false)
    touch_and_wait false (Demo.project (Js.str "build"))
  = mkOut (Throw SerialFailure)
      ([SerialList] ++ SerialOpen (Js.str "/dev/ttyACM0") 1200 :: [SerialStop])
      {| listening := true; list_calls := 1; dc := dc (Demo.project (Js.str "build")) |}
  /\ exists post', [SerialStop] = SerialStop :: post'.
Proof.
  split; [reflexivity |].
  exact (touch_open_is_followed_by_stop
           (Demo.env (Some Demo.leonardo) "arduino-builder" Demo.disk Demo.steady false)
           touch_and_wait false (Demo.project (Js.str "build"))
           [SerialList] [SerialStop] (Js.str "/dev/ttyACM0") 1200 eq_refl).
Defined.

(** ** The wait for the upload port *)

Lemma some_comName_In (xs : list PortInfo) (name : string) :
  ArduinoApp.some_comName xs (Js.str name) = true <-> In name (map comName xs).
Proof.
  unfold ArduinoApp.some_comName. rewrite existsb_exists. split.
  - intros [x [Hx Heq]]. cbn [Js.strict_eq] in Heq.
    apply String.eqb_eq in Heq. subst name. apply in_map. exact Hx.
  - intros Hin. apply in_map_iff in Hin. destruct Hin as [x [Heq Hx]].
    exists x. split; [exact Hx |]. cbn [Js.strict_eq]. apply String.eqb_eq. exact Heq.
Qed.

Lemma first_new_appeared (old now : list PortInfo) (p : PortInfo) :
  first_appeared old now p -> ArduinoApp.first_new old now = Some p.
Proof.
  intros [earlier [later [Hnow [Hold Hnew]]]]. subst now.
  unfold ArduinoApp.first_new.
  induction earlier as [| q earlier IH]; cbn [app find].
  - destruct (ArduinoApp.some_comName old (Js.str (comName p))) eqn:Hp; [| reflexivity].
    apply some_comName_In in Hp. contradiction.
  - assert (Hq : ArduinoApp.some_comName old (Js.str (comName q)) = true).
    { apply some_comName_In. apply Hold. left. reflexivity. }
    rewrite Hq. cbn [negb]. apply IH. intros q' Hq'. apply Hold. right. exact Hq'.
Qed.

Lemma first_new_nothing (old now : list PortInfo) :
  nothing_appeared old now -> ArduinoApp.first_new old now = None.
Proof.
  unfold nothing_appeared, ArduinoApp.first_new.
  induction now as [| q now IH]; intros Hall; [reflexivity |].
  cbn [find].
  assert (Hq : ArduinoApp.some_comName old (Js.str (comName q)) = true).
  { apply some_comName_In. apply Hall. left. reflexivity. }
  rewrite Hq. cbn [negb]. apply IH. intros q' Hq'. apply Hall. right. exact Hq'.
Qed.

Lemma poll_shift (env : Env) (w w' : World) (j : nat) :
  list_calls w' = S (list_calls w) -> poll env w' j = poll env w (S j).
Proof.
  intros Hcalls. unfold poll. rewrite Hcalls. f_equal. lia.
Qed.

Lemma previous_shift (env : Env) (before : list PortInfo) (w w' : World) (j : nat) :
  list_calls w' = S (list_calls w) ->
  previous env (serial_list env (list_calls w)) w' j = previous env before w (S j).
Proof.
  intros Hcalls. destruct j as [| j]; [reflexivity |].
  cbn [previous]. apply poll_shift. exact Hcalls.
Qed.

(** The loop, started with [elapsed] on the clock, after [k] polls that
    neither show a new device nor trigger the fallback. *)
Lemma waitForUploadPort_loop_discovers (env : Env) (uploadPort : Js.value) (p : PortInfo) :
  forall (k fuel : nat) (elapsed : Z) (before : list PortInfo) (w : World),
    (k < fuel)%nat ->
    (elapsed + 250 * Z.of_nat k < 10000)%Z ->
    (forall j, (j < k)%nat ->
       ArduinoApp.first_new (previous env before w j) (poll env w j) = None
       /\ ((5000 <=? elapsed + 250 * (Z.of_nat j + 1))%Z
           && ArduinoApp.some_comName (poll env w j) uploadPort) = false) ->
    ArduinoApp.first_new (previous env before w k) (poll env w k) = Some p ->
    let o := ArduinoApp.waitForUploadPort_loop env fuel uploadPort before elapsed w in
    res o = Ok (Js.str (comName p))
    /\ list_calls (world o) = (S k + list_calls w)%nat.
Proof.
  induction k as [| k IH]; intros fuel elapsed before w Hfuel Htime Hquiet Hfound;
    (destruct fuel as [| fuel]; [lia |]);
    cbn [ArduinoApp.waitForUploadPort_loop];
    (assert (Hlt : (elapsed <? 10000)%Z = true) by (apply Z.ltb_lt; lia));
    rewrite Hlt; run_m;
    change (serial_list env (list_calls w)) with (poll env w 0).
  - cbn [previous] in Hfound. rewrite Hfound. split; reflexivity.
  - destruct (Hquiet 0%nat ltac:(lia)) as [Hnone Hfall].
    cbn [previous] in Hnone. rewrite Hnone. cbv beta iota.
    replace (elapsed + 250 * (Z.of_nat 0 + 1))%Z with (elapsed + 250)%Z in Hfall by lia.
    rewrite Hfall.
    change (poll env w 0) with (serial_list env (list_calls w)).
    match goal with
    | |- context [ArduinoApp.waitForUploadPort_loop env fuel uploadPort ?b ?e ?w'] =>
        specialize (IH fuel e b w');
        assert (Hcalls : list_calls w' = S (list_calls w)) by reflexivity;
        destruct (ArduinoApp.waitForUploadPort_loop env fuel uploadPort b e w')
          as [r ev w2]
    end.
    cbn [res world] in IH |- *.
    replace (S (S k) + list_calls w)%nat with (S k + S (list_calls w))%nat by lia.
    apply IH.
    + lia.
    + lia.
    + intros j Hj. destruct (Hquiet (S j) ltac:(lia)) as [Hn Hf].
      rewrite (previous_shift env before w _ j Hcalls), (poll_shift env w _ j Hcalls).
      replace (elapsed + 250 + 250 * (Z.of_nat j + 1))%Z
        with (elapsed + 250 * (Z.of_nat (S j) + 1))%Z by lia.
      split; [exact Hn | exact Hf].
    + rewrite (previous_shift env before w _ k Hcalls), (poll_shift env w _ k Hcalls).
      exact Hfound.
Qed.

(** C3, as stated, fails: the device returned need not be absent from the
    snapshot taken when the reset began.  The snapshot holds ttyS0, the
    board on ttyACM0 and an adapter on ttyUSB0; board and adapter vanish,
    the adapter is back at the second poll.  The wait returns ttyUSB0
    there, 250 ms in, although ttyUSB0 is in the snapshot, and it never
    gets to the third poll, whose ttyACM1 is the first device absent from
    the snapshot. *)
Lemma wait_returns_device_of_the_snapshot :
  let env := Demo.env (Some Demo.leonardo) "arduino-builder" Demo.disk
                      Demo.adapter_flaps true in
  let before := [Demo.ttyS0; Demo.ttyACM0; Demo.ttyUSB0] in
  let w := Demo.project (Js.str "build") in
  ArduinoApp.waitForUploadPort env (Js.str "/dev/ttyACM0") before w
    = mkOut (Ok (Js.str "/dev/ttyUSB0")) [SerialList; Delay 250; SerialList]
        {| listening := true; list_calls := 2; dc := dc w |}
  /\ In "/dev/ttyUSB0" (map comName before)
  /\ ArduinoApp.first_new before (poll env w 0) = None
  /\ ArduinoApp.first_new before (poll env w 1) = None
  /\ ArduinoApp.first_new before (poll env w 2) = Some Demo.ttyACM1.
Proof.
  cbv zeta. repeat split. cbn. right. right. left. reflexivity.
Qed.

(** C3, amended.  Each poll is compared with the enumeration before it: the
    snapshot for the first poll, the previous poll afterwards.  If the polls
    before the [k]-th show nothing new and do not trigger the fallback on
    the configured port, and [p] is the first device of the [k]-th poll
    whose name the enumeration before it lacks, then the wait returns the
    name of [p] at that poll.  With [k = 0] this is the case of the claim:
    snapshot {A}, first poll {B}, port B. *)
Theorem wait_returns_first_device_new_since_previous_poll
    (env : Env) (uploadPort : Js.value) (before : list PortInfo) (w : World)
    (k : nat) (p : PortInfo)
    (Hk : (k < 40)%nat)
    (Hquiet : forall j, (j < k)%nat ->
        nothing_appeared (previous env before w j) (poll env w j)
        /\ ((250 * (Z.of_nat j + 1) < 5000)%Z
            \/ ArduinoApp.some_comName (poll env w j) uploadPort = false))
    (Hnew : first_appeared (previous env before w k) (poll env w k) p) :
  let o := ArduinoApp.waitForUploadPort env uploadPort before w in
  res o = Ok (Js.str (comName p))
  /\ list_calls (world o) = (S k + list_calls w)%nat.
Proof.
  unfold ArduinoApp.waitForUploadPort.
  apply waitForUploadPort_loop_discovers.
  - exact Hk.
  - lia.
  - intros j Hj. destruct (Hquiet j Hj) as [Hnothing Hfallback].
    split; [apply first_new_nothing; exact Hnothing |].
    destruct Hfallback as [Hearly | Habsent].
    + assert (Hle : (5000 <=? 0 + 250 * (Z.of_nat j + 1))%Z = false)
        by (apply Z.leb_gt; lia).
      rewrite Hle. reflexivity.
    + rewrite Habsent. apply andb_false_r.
  - apply first_new_appeared. exact Hnew.
Qed.

(** Snapshot {ttyACM0}, first poll {ttyACM1}: the port is ttyACM1. *)
Lemma wait_returns_first_device_new_since_previous_poll_witness :
  res (ArduinoApp.waitForUploadPort
         (Demo.env (Some Demo.leonardo) "arduino-builder" Demo.disk Demo.renamed true)
         (Js.str "/dev/ttyACM0") [Demo.ttyACM0] (Demo.project (Js.str "build")))
  = Ok (Js.str "/dev/ttyACM1").
Proof.
  refine (proj1 (wait_returns_first_device_new_since_previous_poll
                   (Demo.env (Some Demo.leonardo) "arduino-builder" Demo.disk
                             Demo.renamed true)
                   (Js.str "/dev/ttyACM0") [Demo.ttyACM0] (Demo.project (Js.str "build"))
                   0 Demo.ttyACM1 _ _ _)).
  - lia.
  - intros j Hj. lia.
  - exists [], []. split; [reflexivity |]. split.
    + intros q Hq. destruct Hq.
    + cbn. intros [Heq | Hfalse]; [discriminate Heq | exact Hfalse].
Defined.

(** A board that leaves ttyACM0 and is back on ttyACM0 at the second poll is
    found there, because the second poll is compared with the first. *)
Example board_back_on_same_port :
  ArduinoApp.waitForUploadPort
    (Demo.env (Some Demo.leonardo) "arduino-builder" Demo.disk Demo.board_back true)
    (Js.str "/dev/ttyACM0") [Demo.ttyS0; Demo.ttyACM0] (Demo.project (Js.str "build"))
  = mkOut (Ok (Js.str "/dev/ttyACM0")) [SerialList; Delay 250; SerialList]
      {| listening := true; list_calls := 2; dc := dc (Demo.project (Js.str "build")) |}.
Proof. reflexivity. Qed.

(** The case of the claim for any two names. *)
Lemma wait_first_poll_renamed (env : Env) (uploadPort : Js.value) (w : World)
    (a b : string) :
  a <> b ->
  serial_list env (list_calls w) = [{| comName := b |}] ->
  res (ArduinoApp.waitForUploadPort env uploadPort [{| comName := a |}] w)
  = Ok (Js.str b).
Proof.
  intros Hab Hpoll.
  refine (proj1 (waitForUploadPort_loop_discovers env uploadPort {| comName := b |}
                   0 40 0 [{| comName := a |}] w _ _ _ _)).
  - lia.
  - lia.
  - intros j Hj. lia.
  - cbn [previous]. unfold poll. cbn [Nat.add]. rewrite Hpoll.
    unfold ArduinoApp.first_new, ArduinoApp.some_comName.
    cbn [find existsb comName Js.strict_eq orb negb].
    destruct (String.eqb_spec a b) as [Heq | Hneq]; [contradiction | reflexivity].
Qed.

(** The wait always ends: 40 iterations exhaust the 10000 ms. *)
Lemma waitForUploadPort_loop_ends (env : Env) (uploadPort : Js.value) :
  forall (fuel : nat) (elapsed : Z) (before : list PortInfo) (w : World),
    (10000 - elapsed <= 250 * Z.of_nat fuel)%Z ->
    res (ArduinoApp.waitForUploadPort_loop env fuel uploadPort before elapsed w)
    <> Diverged.
Proof.
  induction fuel as [| fuel IH]; intros elapsed before w Hfuel;
    cbn [ArduinoApp.waitForUploadPort_loop];
    destruct (Z.ltb_spec elapsed 10000); try (cbn; discriminate); try lia.
  run_m.
  destruct (ArduinoApp.first_new before (serial_list env (list_calls w)));
    [discriminate |].
  cbv beta iota.
  destruct ((5000 <=? elapsed + 250)%Z
            && ArduinoApp.some_comName (serial_list env (list_calls w)) uploadPort);
    [discriminate |].
  match goal with
  | |- context [ArduinoApp.waitForUploadPort_loop env fuel uploadPort ?b ?e ?w'] =>
      specialize (IH e b w' ltac:(lia));
      destruct (ArduinoApp.waitForUploadPort_loop env fuel uploadPort b e w')
        as [r ev w2]
  end.
  cbn [res] in IH |- *. exact IH.
Qed.

Lemma waitForUploadPort_ends (env : Env) (uploadPort : Js.value)
    (before : list PortInfo) (w : World) :
  res (ArduinoApp.waitForUploadPort env uploadPort before w) <> Diverged.
Proof.
  unfold ArduinoApp.waitForUploadPort. apply waitForUploadPort_loop_ends. lia.
Qed.

(** A wait left with exactly [k] iterations, none of which shows a new
    device or triggers the fallback, makes its [k] polls and returns
    [undefined]. *)
Lemma waitForUploadPort_loop_times_out (env : Env) (uploadPort : Js.value) :
  forall (k fuel : nat) (elapsed : Z) (before : list PortInfo) (w : World),
    (k <= fuel)%nat ->
    (elapsed = 10000 - 250 * Z.of_nat k)%Z ->
    (forall j, (j < k)%nat ->
       ArduinoApp.first_new (previous env before w j) (poll env w j) = None
       /\ ((5000 <=? elapsed + 250 * (Z.of_nat j + 1))%Z
           && ArduinoApp.some_comName (poll env w j) uploadPort) = false) ->
    let o := ArduinoApp.waitForUploadPort_loop env fuel uploadPort before elapsed w in
    res o = Ok Js.undefined
    /\ list_calls (world o) = (k + list_calls w)%nat.
Proof.
  induction k as [| k IH]; intros fuel elapsed before w Hfuel Htime Hquiet.
  - assert (Hge : (elapsed <? 10000)%Z = false) by (apply Z.ltb_ge; lia).
    destruct fuel; cbn [ArduinoApp.waitForUploadPort_loop]; rewrite Hge;
      split; reflexivity.
  - destruct fuel as [| fuel]; [lia |].
    cbn [ArduinoApp.waitForUploadPort_loop].
    assert (Hlt : (elapsed <? 10000)%Z = true) by (apply Z.ltb_lt; lia).
    rewrite Hlt. run_m.
    change (serial_list env (list_calls w)) with (poll env w 0).
    destruct (Hquiet 0%nat ltac:(lia)) as [Hnone Hfall].
    cbn [previous] in Hnone. rewrite Hnone. cbv beta iota.
    replace (elapsed + 250 * (Z.of_nat 0 + 1))%Z with (elapsed + 250)%Z in Hfall by lia.
    rewrite Hfall.
    change (poll env w 0) with (serial_list env (list_calls w)).
    match goal with
    | |- context [ArduinoApp.waitForUploadPort_loop env fuel uploadPort ?b ?e ?w'] =>
        specialize (IH fuel e b w');
        assert (Hcalls : list_calls w' = S (list_calls w)) by reflexivity;
        destruct (ArduinoApp.waitForUploadPort_loop env fuel uploadPort b e w')
          as [r ev w2]
    end.
    cbn [res world] in IH |- *.
    replace (S k + list_calls w)%nat with (k + S (list_calls w))%nat by lia.
    apply IH.
    + lia.
    + lia.
    + intros j Hj. destruct (Hquiet (S j) ltac:(lia)) as [Hn Hf].
      rewrite (previous_shift env before w _ j Hcalls), (poll_shift env w _ j Hcalls).
      replace (elapsed + 250 + 250 * (Z.of_nat j + 1))%Z
        with (elapsed + 250 * (Z.of_nat (S j) + 1))%Z by lia.
      split; [exact Hn | exact Hf].
Qed.

(** After the touch, a wait that returns [undefined] makes
    [prepareUploadPort] return [undefined]: only [null] is replaced by the
    configured port. *)
Lemma prepareUploadPort_hands_on_undefined (env : Env) (verbose : bool) (w : World) :
  serial_stop_ok env = true ->
  serial_open_ok env = true ->
  (forall w', list_calls w' = S (list_calls w) ->
     res (ArduinoApp.waitForUploadPort env (port (dc w'))
            (serial_list env (list_calls w)) w') = Ok Js.undefined) ->
  res (ArduinoApp.prepareUploadPort env touch_and_wait verbose w) = Ok Js.undefined.
Proof.
  intros Hstop Hopen Hwait.
  unfold ArduinoApp.prepareUploadPort. run_m. cbn [touch_and_wait Properties.get].
  cbn [String.eqb Ascii.eqb Bool.eqb Js.strict_eq]. cbv beta iota.
  rewrite Hstop, Hopen.
  destruct (ArduinoApp.some_comName (serial_list env (list_calls w)) (port (dc w)));
    destruct verbose; cbv beta iota.
  all: match goal with
       | |- context [ArduinoApp.waitForUploadPort ?en ?u ?b ?w'] =>
           pose proof (Hwait w' eq_refl) as Hres; cbn [dc] in Hres;
           destruct (ArduinoApp.waitForUploadPort en u b w') as [r ev w2]
       end.
  all: cbn [res] in Hres; subst r; reflexivity.
Qed.

(** ** Further properties of the installers *)

Lemma append_empty_r (s : string) : s ++ "" = s.
Proof.
  induction s as [| c s IH]; [reflexivity |]. cbn [append]. rewrite IH. reflexivity.
Qed.

Lemma board_specifier (name arch version : string) :
  name ++ and_str arch (":" ++ arch) ++ and_str version (":" ++ version)
  = specifier name [arch; version].
Proof.
  unfold specifier, and_str.
  destruct arch as [| a arch]; destruct version as [| v version];
    cbn [String.eqb filter negb String.concat append];
    rewrite ?append_empty_r; reflexivity.
Qed.

Lemma library_specifier (name version : string) :
  name ++ and_str version (":" ++ version) = specifier name [version].
Proof.
  unfold specifier, and_str.
  destruct version as [| v version];
    cbn [String.eqb filter negb String.concat append];
    rewrite ?append_empty_r; reflexivity.
Qed.

(** X1.  Whatever becomes of the process (any exit code, or no process at
    all), [installBoard] and [installLibrary] return normally and leave the
    state alone.  They make four calls: they show the channel, announce the
    task, spawn the IDE once with [--install-boards] (or [--install-library])
    and the specifier name[:arch][:version], where an empty architecture or
    version leaves no empty segment, and close with one message. *)
Theorem installers_spawn_once_and_never_throw
    (env : Env) (name arch version : string) (showOutput : bool) (w : World) :
  (exists start closing,
     ArduinoApp.installBoard env name arch version showOutput w
     = mkOut (Ok tt)
         [ChannelShow; ChannelStart start;
          Spawn (Js.str (commandPath (settings env))) showOutput
                ["--install-boards"; specifier name [arch; version]] None;
          closing]
         w
     /\ closes_install closing)
  /\
  (exists start closing,
     ArduinoApp.installLibrary env name version showOutput w
     = mkOut (Ok tt)
         [ChannelShow; ChannelStart start;
          Spawn (Js.str (commandPath (settings env))) showOutput
                ["--install-library"; specifier name [version]] None;
          closing]
         w
     /\ closes_install closing).
Proof.
  split.
  - unfold ArduinoApp.installBoard. rewrite board_specifier.
    destruct ((name =? "dummy") && negb (Js.truthy (Js.str arch))
                && negb (Js.truthy (Js.str version)));
      run_m;
      destruct (spawn_outcome env (Js.str (commandPath (settings env)))
                  ["--install-boards"; specifier name [arch; version]]) as [| code];
      cbv beta iota;
      try (destruct (code_is (SpawnRejected code) 1));
      eexists _, _; (split; [reflexivity | exact I]).
  - unfold ArduinoApp.installLibrary. rewrite library_specifier.
    destruct ((name =? "dummy") && negb (Js.truthy (Js.str version)));
      run_m;
      destruct (spawn_outcome env (Js.str (commandPath (settings env)))
                  ["--install-library"; specifier name [version]]) as [| code];
      cbv beta iota;
      try (destruct (code_is (SpawnRejected code) 1));
      eexists _, _; (split; [reflexivity | exact I]).
Qed.

Lemma installBoard_returns (env : Env) (name arch version : string)
    (showOutput : bool) (w : World) :
  exists evs,
    ArduinoApp.installBoard env name arch version showOutput w = mkOut (Ok tt) evs w.
Proof.
  unfold ArduinoApp.installBoard.
  destruct ((name =? "dummy") && negb (Js.truthy (Js.str arch))
              && negb (Js.truthy (Js.str version)));
    run_m;
    match goal with
    | |- context [spawn_outcome ?e ?c ?a] => destruct (spawn_outcome e c a) as [| code]
    end;
    cbv beta iota;
    try (destruct (code_is (SpawnRejected code) 1));
    eexists; reflexivity.
Qed.

Lemma installLibrary_returns (env : Env) (name version : string)
    (showOutput : bool) (w : World) :
  exists evs,
    ArduinoApp.installLibrary env name version showOutput w = mkOut (Ok tt) evs w.
Proof.
  unfold ArduinoApp.installLibrary.
  destruct ((name =? "dummy") && negb (Js.truthy (Js.str version)));
    run_m;
    match goal with
    | |- context [spawn_outcome ?e ?c ?a] => destruct (spawn_outcome e c a) as [| code]
    end;
    cbv beta iota;
    try (destruct (code_is (SpawnRejected code) 1));
    eexists; reflexivity.
Qed.

(** X2.  [initialize] never fails and leaves the state alone.  When
    preferences.txt is missing it spawns the IDE with [--save-prefs] and
    reloads the preferences, also when that process failed; then, when
    forced or when package_index.json is missing, it makes the calls of the
    install of the package "dummy", and nothing else.  With both files in
    place and no force it makes no call at all. *)
Theorem initialize_bootstraps_what_is_missing (env : Env) (force : bool) (w : World) :
  let st := settings env in
  ArduinoApp.initialize env force w
  = mkOut (Ok tt)
      ((if fileExistsSync env (preferencePath st) then []
        else [Spawn (Js.str (commandPath st)) false
                    ["--pref"; "boardsmanager.additional.urls="; "--save-prefs"] None;
              ReloadPreferences])
       ++
       (if force || negb (fileExistsSync env (path_join env [packagePath st;
                                                             "package_index.json"]))
        then events (ArduinoApp.installBoard env "dummy" "" "" true w)
        else []))%list
      w.
Proof.
  cbv zeta. unfold ArduinoApp.initialize, ArduinoApp.setPref.
  destruct (installBoard_returns env "dummy" "" "" true w) as [evs Hevs].
  destruct (fileExistsSync env (preferencePath (settings env)));
    destruct (force || negb (fileExistsSync env (path_join env [packagePath (settings env);
                                                                 "package_index.json"])));
    cbn [negb]; run_m; rewrite ?Hevs; cbv beta iota;
    try match goal with
        | |- context [spawn_outcome ?e ?c ?a] => destruct (spawn_outcome e c a) as [| code]
        end;
    cbv beta iota; rewrite ?Hevs; cbv beta iota; cbn [app events append];
    rewrite ?app_nil_r; reflexivity.
Qed.

(** X3.  [initializeLibrary] never fails: when forced or when
    library_index.json is missing it makes the calls of the install of the
    library "dummy", whose first message is "Update library index
    files..."; otherwise it makes no call. *)
Theorem initializeLibrary_refreshes_when_needed (env : Env) (force : bool) (w : World) :
  ArduinoApp.initializeLibrary env force w
  = mkOut (Ok tt)
      (if force || negb (fileExistsSync env (path_join env [packagePath (settings env);
                                                            "library_index.json"]))
       then events (ArduinoApp.installLibrary env "dummy" "" true w)
       else [])
      w
  /\ exists rest,
       events (ArduinoApp.installLibrary env "dummy" "" true w)
       = ChannelShow :: ChannelStart "Update library index files..." :: rest.
Proof.
  split.
  - unfold ArduinoApp.initializeLibrary.
    destruct (force || negb (fileExistsSync env (path_join env [packagePath (settings env);
                                                                 "library_index.json"])));
      run_m; [| reflexivity].
    destruct (installLibrary_returns env "dummy" "" true w) as [evs Hevs].
    rewrite Hevs. cbn [events app]. rewrite ?app_nil_r. reflexivity.
  - unfold ArduinoApp.installLibrary.
    cbn [String.eqb Ascii.eqb Bool.eqb Js.truthy negb andb]. run_m.
    match goal with
    | |- context [spawn_outcome ?e ?c ?a] => destruct (spawn_outcome e c a) as [| code]
    end;
    cbv beta iota;
    try (destruct (code_is (SpawnRejected code) 1));
    eexists; reflexivity.
Qed.

(** ** Further properties of the platform directory *)

(** X4.  A built-in platform directory wins: when
    <defaultPackagePath>/<package>/<architecture> is a directory, it is the
    answer whatever the user has installed, and nothing else is called. *)
Theorem builtin_platform_directory_wins
    (env : Env) (b : Board) (entries : list string) (w : World)
    (Hboard : currentBoard env = Some b)
    (Hdir : fs_node env (builtInPath env b) = Some (Directory entries)) :
  ArduinoApp.resolvePackagePath env w = mkOut (Ok (Some (builtInPath env b))) [] w.
Proof.
  exact (resolvePackagePath_builtin_present env b (Directory entries) w Hboard Hdir).
Qed.

Lemma builtin_platform_directory_wins_witness :
  ArduinoApp.resolvePackagePath Demo.standard (Demo.project Js.undefined)
  = mkOut (Ok (Some "/opt/arduino/hardware/arduino/avr")) [] (Demo.project Js.undefined).
Proof.
  exact (builtin_platform_directory_wins Demo.standard Demo.leonardo
           ["boards.txt"; "platform.txt"] (Demo.project Js.undefined) eq_refl eq_refl).
Defined.

(** X5.  With nothing at the built-in path, the answer is the first entry
    that the listing of <packagePath>/packages/<package>/hardware/<architecture>
    gives, appended to that directory; the other entries play no part, so
    no version is compared with another. *)
Theorem user_platform_first_entry_is_the_version
    (env : Env) (b : Board) (version : string) (others : list string) (w : World)
    (Hboard : currentBoard env = Some b)
    (Hnone : fs_node env (builtInPath env b) = None)
    (Hlisting : fs_node env (externalPath env b) = Some (Directory (version :: others))) :
  ArduinoApp.resolvePackagePath env w
  = mkOut (Ok (Some (path_join env [externalPath env b; version]))) [] w.
Proof.
  exact (resolvePackagePath_external env b version others w Hboard Hnone Hlisting).
Qed.

(** 1.8.3 is listed before 1.6.23. *)
Lemma user_platform_first_entry_is_the_version_witness :
  ArduinoApp.resolvePackagePath
    (Demo.env (Some Demo.leonardo) "arduino-builder" Demo.disk_user_platform Demo.steady true)
    (Demo.project Js.undefined)
  = mkOut (Ok (Some "/home/dev/.arduino15/packages/arduino/hardware/avr/1.8.3")) []
      (Demo.project Js.undefined).
Proof.
  exact (user_platform_first_entry_is_the_version
           (Demo.env (Some Demo.leonardo) "arduino-builder" Demo.disk_user_platform
                     Demo.steady true)
           Demo.leonardo "1.8.3" ["1.6.23"] (Demo.project Js.undefined)
           eq_refl eq_refl eq_refl).
Defined.

(** X6.  With a board selected, a platform that cannot be found is not an
    error: when nothing is at the built-in path and the user's directory is
    missing, is a file or is empty, the answer is [null], the failures of
    [lstatSync] and [readdirSync] are swallowed and nothing is called. *)
Theorem unresolved_platform_is_null
    (env : Env) (b : Board) (w : World)
    (Hboard : currentBoard env = Some b)
    (Hnone : fs_node env (builtInPath env b) = None)
    (Hempty : forall version others,
        fs_node env (externalPath env b) <> Some (Directory (version :: others))) :
  ArduinoApp.resolvePackagePath env w = mkOut (Ok None) [] w.
Proof.
  unfold builtInPath, externalPath in *.
  unfold ArduinoApp.resolvePackagePath. run_m. rewrite Hboard. cbv beta iota.
  rewrite Hnone. cbv beta iota.
  destruct (fs_node env (path_join env [packagePath (settings env); "packages";
                                        getPackageName b; "hardware"; architecture b]))
    as [[| [| version others]] |] eqn:Hext; try reflexivity.
  exfalso. exact (Hempty version others eq_refl).
Qed.

Lemma unresolved_platform_is_null_witness :
  ArduinoApp.resolvePackagePath
    (Demo.env (Some Demo.leonardo) "arduino-builder" Demo.disk_bare Demo.steady true)
    (Demo.project Js.undefined)
  = mkOut (Ok None) [] (Demo.project Js.undefined).
Proof.
  refine (unresolved_platform_is_null
            (Demo.env (Some Demo.leonardo) "arduino-builder" Demo.disk_bare Demo.steady true)
            Demo.leonardo (Demo.project Js.undefined) eq_refl eq_refl _).
  intros version others Hfalse. discriminate Hfalse.
Defined.

(** ** Further properties of the wait for the upload port *)

Lemma waitForUploadPort_loop_bounded (env : Env) (uploadPort : Js.value) :
  forall (k fuel : nat) (elapsed : Z) (before : list PortInfo) (w : World),
    (k <= fuel)%nat ->
    (elapsed = 10000 - 250 * Z.of_nat k)%Z ->
    let o := ArduinoApp.waitForUploadPort_loop env fuel uploadPort before elapsed w in
    (exists v, res o = Ok v)
    /\ (list_calls w <= list_calls (world o) <= k + list_calls w)%nat
    /\ ((0 < k)%nat -> (list_calls w < list_calls (world o))%nat)
    /\ (total_delay (events o) <= 250 * Z.of_nat k)%Z
    /\ listening (world o) = listening w
    /\ dc (world o) = dc w.
Proof.
  induction k as [| k IH]; intros fuel elapsed before w Hfuel Htime.
  - assert (Hge : (elapsed <? 10000)%Z = false) by (apply Z.ltb_ge; lia).
    destruct fuel; cbn [ArduinoApp.waitForUploadPort_loop]; rewrite Hge;
      cbn; repeat split; try lia; eexists; reflexivity.
  - destruct fuel as [| fuel]; [lia |].
    cbn [ArduinoApp.waitForUploadPort_loop].
    assert (Hlt : (elapsed <? 10000)%Z = true) by (apply Z.ltb_lt; lia).
    rewrite Hlt. run_m.
    destruct (ArduinoApp.first_new before (serial_list env (list_calls w))).
    { cbn [list_calls listening dc total_delay app].
      repeat split; try lia. eexists; reflexivity. }
    cbv beta iota.
    destruct ((5000 <=? elapsed + 250)%Z
              && ArduinoApp.some_comName (serial_list env (list_calls w)) uploadPort).
    { cbn [list_calls listening dc total_delay app].
      repeat split; try lia. eexists; reflexivity. }
    match goal with
    | |- context [ArduinoApp.waitForUploadPort_loop env fuel uploadPort ?b ?e ?w'] =>
        specialize (IH fuel e b w' ltac:(lia) ltac:(lia));
        destruct (ArduinoApp.waitForUploadPort_loop env fuel uploadPort b e w')
          as [r ev w2]
    end.
    cbn [res events world list_calls listening dc] in IH.
    destruct IH as [Hres [Hcalls [_ [Hdelay [Hlistening Hdc]]]]].
    cbn [app total_delay].
    repeat split; try lia; try assumption.
Qed.

(** X7.  The wait for the upload port always comes to an end with a value
    (a port name or [undefined]) and never throws.  It enumerates the
    devices at least once and at most 40 times, spends at most 10000 ms in
    delays, and leaves the listener and the device context as they were. *)
Theorem wait_for_upload_port_is_bounded
    (env : Env) (uploadPort : Js.value) (before : list PortInfo) (w : World) :
  let o := ArduinoApp.waitForUploadPort env uploadPort before w in
  (exists v, res o = Ok v)
  /\ (list_calls w < list_calls (world o) <= 40 + list_calls w)%nat
  /\ (total_delay (events o) <= 10000)%Z
  /\ listening (world o) = listening w
  /\ dc (world o) = dc w.
Proof.
  cbv zeta. unfold ArduinoApp.waitForUploadPort.
  destruct (waitForUploadPort_loop_bounded env uploadPort 40 40 0 before w
              ltac:(lia) ltac:(lia))
    as [Hres [Hcalls [Hmore [Hdelay [Hlistening Hdc]]]]].
  repeat split; try assumption; lia.
Qed.

(** X8.  When none of the 40 polls shows a device that the enumeration
    before it lacks, and the configured port is in no poll made from 5000 ms
    on, the wait makes all 40 polls and returns [undefined]. *)
Theorem wait_returns_undefined_after_forty_quiet_polls
    (env : Env) (uploadPort : Js.value) (before : list PortInfo) (w : World)
    (Hquiet : forall j, (j < 40)%nat ->
        nothing_appeared (previous env before w j) (poll env w j)
        /\ ((250 * (Z.of_nat j + 1) < 5000)%Z
            \/ ArduinoApp.some_comName (poll env w j) uploadPort = false)) :
  let o := ArduinoApp.waitForUploadPort env uploadPort before w in
  res o = Ok Js.undefined
  /\ list_calls (world o) = (40 + list_calls w)%nat.
Proof.
  unfold ArduinoApp.waitForUploadPort.
  apply waitForUploadPort_loop_times_out.
  - lia.
  - lia.
  - intros j Hj. destruct (Hquiet j Hj) as [Hnothing Hfallback].
    split; [apply first_new_nothing; exact Hnothing |].
    destruct Hfallback as [Hearly | Habsent].
    + assert (Hle : (5000 <=? 0 + 250 * (Z.of_nat j + 1))%Z = false)
        by (apply Z.leb_gt; lia).
      rewrite Hle. reflexivity.
    + rewrite Habsent. apply andb_false_r.
Qed.

(** The board was on ttyACM0 and every poll shows ttyS0 only. *)
Lemma wait_returns_undefined_after_forty_quiet_polls_witness :
  res (ArduinoApp.waitForUploadPort
         (Demo.env (Some Demo.leonardo) "arduino-builder" Demo.disk Demo.gone true)
         (Js.str "/dev/ttyACM0") [Demo.ttyS0; Demo.ttyACM0] (Demo.project (Js.str "build")))
  = Ok Js.undefined.
Proof.
  refine (proj1 (wait_returns_undefined_after_forty_quiet_polls
                   (Demo.env (Some Demo.leonardo) "arduino-builder" Demo.disk Demo.gone true)
                   (Js.str "/dev/ttyACM0") [Demo.ttyS0; Demo.ttyACM0]
                   (Demo.project (Js.str "build")) _)).
  intros j Hj. split.
  - intros q Hq. destruct Hq as [Hq | []]. subst q.
    destruct j; cbn; left; reflexivity.
  - right. reflexivity.
Defined.

Lemma waitForUploadPort_loop_falls_back (env : Env) (uploadPort : Js.value) :
  forall (k fuel : nat) (elapsed : Z) (before : list PortInfo) (w : World),
    (k < fuel)%nat ->
    (elapsed + 250 * Z.of_nat k < 10000)%Z ->
    (forall j, (j < k)%nat ->
       ArduinoApp.first_new (previous env before w j) (poll env w j) = None
       /\ ((5000 <=? elapsed + 250 * (Z.of_nat j + 1))%Z
           && ArduinoApp.some_comName (poll env w j) uploadPort) = false) ->
    ArduinoApp.first_new (previous env before w k) (poll env w k) = None ->
    ((5000 <=? elapsed + 250 * (Z.of_nat k + 1))%Z
     && ArduinoApp.some_comName (poll env w k) uploadPort) = true ->
    let o := ArduinoApp.waitForUploadPort_loop env fuel uploadPort before elapsed w in
    res o = Ok uploadPort
    /\ list_calls (world o) = (S k + list_calls w)%nat
    /\ total_delay (events o) = (250 * (Z.of_nat k + 1))%Z.
Proof.
  induction k as [| k IH];
    intros fuel elapsed before w Hfuel Htime Hquiet Hnothing Hback;
    (destruct fuel as [| fuel]; [lia |]);
    cbn [ArduinoApp.waitForUploadPort_loop];
    (assert (Hlt : (elapsed <? 10000)%Z = true) by (apply Z.ltb_lt; lia));
    rewrite Hlt; run_m;
    change (serial_list env (list_calls w)) with (poll env w 0).
  - cbn [previous] in Hnothing. rewrite Hnothing. cbv beta iota.
    replace (elapsed + 250 * (Z.of_nat 0 + 1))%Z with (elapsed + 250)%Z in Hback by lia.
    rewrite Hback. repeat split.
  - destruct (Hquiet 0%nat ltac:(lia)) as [Hnone Hfall].
    cbn [previous] in Hnone. rewrite Hnone. cbv beta iota.
    replace (elapsed + 250 * (Z.of_nat 0 + 1))%Z with (elapsed + 250)%Z in Hfall by lia.
    rewrite Hfall.
    change (poll env w 0) with (serial_list env (list_calls w)).
    match goal with
    | |- context [ArduinoApp.waitForUploadPort_loop env fuel uploadPort ?b ?e ?w'] =>
        specialize (IH fuel e b w');
        assert (Hcalls : list_calls w' = S (list_calls w)) by reflexivity;
        destruct (ArduinoApp.waitForUploadPort_loop env fuel uploadPort b e w')
          as [r ev w2]
    end.
    cbn [res world events] in IH |- *. cbn [app total_delay].
    replace (S (S k) + list_calls w)%nat with (S k + S (list_calls w))%nat by lia.
    replace (250 * (Z.of_nat (S k) + 1))%Z with (250 + 250 * (Z.of_nat k + 1))%Z by lia.
    assert (Hgoal : r = Ok uploadPort
                    /\ list_calls w2 = (S k + S (list_calls w))%nat
                    /\ total_delay ev = (250 * (Z.of_nat k + 1))%Z).
    { apply IH.
      + lia.
      + lia.
      + intros j Hj. destruct (Hquiet (S j) ltac:(lia)) as [Hn Hf].
        rewrite (previous_shift env before w _ j Hcalls), (poll_shift env w _ j Hcalls).
        replace (elapsed + 250 + 250 * (Z.of_nat j + 1))%Z
          with (elapsed + 250 * (Z.of_nat (S j) + 1))%Z by lia.
        split; [exact Hn | exact Hf].
      + rewrite (previous_shift env before w _ k Hcalls), (poll_shift env w _ k Hcalls).
        exact Hnothing.
      + rewrite (poll_shift env w _ k Hcalls).
        replace (elapsed + 250 + 250 * (Z.of_nat k + 1))%Z
          with (elapsed + 250 * (Z.of_nat (S k) + 1))%Z by lia.
        exact Hback. }
    destruct Hgoal as [Hr [Hc Hd]]. repeat split; [exact Hr | exact Hc | lia].
Qed.

(** X9.  The fallback on the configured port.  When no poll up to the
    [k]-th shows a new device, the [k]-th poll is made at 5000 ms or later
    (so [k] is at least 19) and is the first such poll to hold the
    configured port, the wait returns the configured port after [k + 1]
    polls and 250 * (k + 1) ms of delay: a port that stays in place is
    accepted after 5 seconds, not before. *)
Theorem wait_accepts_configured_port_after_five_seconds
    (env : Env) (uploadPort : Js.value) (before : list PortInfo) (w : World) (k : nat)
    (Hk : (k < 40)%nat)
    (Hquiet : forall j, (j <= k)%nat ->
        nothing_appeared (previous env before w j) (poll env w j))
    (Hearlier : forall j, (j < k)%nat ->
        (250 * (Z.of_nat j + 1) < 5000)%Z
        \/ ArduinoApp.some_comName (poll env w j) uploadPort = false)
    (Hlate : (5000 <= 250 * (Z.of_nat k + 1))%Z)
    (Hback : ArduinoApp.some_comName (poll env w k) uploadPort = true) :
  let o := ArduinoApp.waitForUploadPort env uploadPort before w in
  res o = Ok uploadPort
  /\ list_calls (world o) = (S k + list_calls w)%nat
  /\ total_delay (events o) = (250 * (Z.of_nat k + 1))%Z.
Proof.
  unfold ArduinoApp.waitForUploadPort.
  apply waitForUploadPort_loop_falls_back.
  - exact Hk.
  - lia.
  - intros j Hj. split; [apply first_new_nothing; apply Hquiet; lia |].
    destruct (Hearlier j Hj) as [Hearly | Habsent].
    + assert (Hle : (5000 <=? 0 + 250 * (Z.of_nat j + 1))%Z = false)
        by (apply Z.leb_gt; lia).
      rewrite Hle. reflexivity.
    + rewrite Habsent. apply andb_false_r.
  - apply first_new_nothing. apply Hquiet. lia.
  - rewrite Hback.
    assert (Hle : (5000 <=? 0 + 250 * (Z.of_nat k + 1))%Z = true)
      by (apply Z.leb_le; lia).
    rewrite Hle. reflexivity.
Qed.

(** The devices never change and the board stays on ttyACM0: it is accepted
    at the 20th poll. *)
Lemma wait_accepts_configured_port_after_five_seconds_witness :
  let o := ArduinoApp.waitForUploadPort Demo.standard (Js.str "/dev/ttyACM0")
             [Demo.ttyS0; Demo.ttyACM0] (Demo.project (Js.str "build")) in
  res o = Ok (Js.str "/dev/ttyACM0")
  /\ list_calls (world o) = 20%nat
  /\ total_delay (events o) = 5000%Z.
Proof.
  refine (wait_accepts_configured_port_after_five_seconds
            Demo.standard (Js.str "/dev/ttyACM0") [Demo.ttyS0; Demo.ttyACM0]
            (Demo.project (Js.str "build")) 19 _ _ _ _ _).
  - lia.
  - intros j Hj q Hq. destruct j; exact (in_map comName _ q Hq).
  - intros j Hj. left. lia.
  - lia.
  - reflexivity.
Defined.

(** ** Further properties of the preparation of the upload port *)

(** X10.  Unless [upload.use_1200bps_touch] is exactly "true", the
    preparation enumerates no device, opens no port and does not wait for a
    new one, whatever [upload.wait_for_upload_port] says: it delays 400 ms
    and returns the configured port. *)
Theorem without_touch_the_configured_port_is_used
    (env : Env) (uploadProperties : Properties.t) (verbose : bool) (w : World)
    (Hnotouch :
       (Properties.get uploadProperties "upload.use_1200bps_touch" === Js.str "true")
       = false) :
  ArduinoApp.prepareUploadPort env uploadProperties verbose w
  = mkOut (Ok (port (dc w))) [Delay 400] w.
Proof.
  unfold ArduinoApp.prepareUploadPort. run_m. rewrite Hnotouch. reflexivity.
Qed.

(** The wait alone is asked for, and the touch is spelled "yes". *)
Lemma without_touch_the_configured_port_is_used_witness :
  ArduinoApp.prepareUploadPort Demo.standard
    [("upload.wait_for_upload_port", Js.str "true");
     ("upload.use_1200bps_touch", Js.str "yes")]
    true (Demo.project (Js.str "build"))
  = mkOut (Ok (Js.str "/dev/ttyACM0")) [Delay 400] (Demo.project (Js.str "build")).
Proof.
  exact (without_touch_the_configured_port_is_used Demo.standard
           [("upload.wait_for_upload_port", Js.str "true");
            ("upload.use_1200bps_touch", Js.str "yes")]
           true (Demo.project (Js.str "build")) eq_refl).
Defined.

(** X11.  Unless [upload.wait_for_upload_port] is exactly "true", a
    preparation that returns returns the configured port: the touch alone
    never changes the port, and it makes one enumeration at most. *)
Theorem without_wait_the_port_is_not_replaced
    (env : Env) (uploadProperties : Properties.t) (verbose : bool) (w : World)
    (v : Js.value)
    (Hnowait :
       (Properties.get uploadProperties "upload.wait_for_upload_port" === Js.str "true")
       = false)
    (Hreturns : res (ArduinoApp.prepareUploadPort env uploadProperties verbose w) = Ok v) :
  v = port (dc w)
  /\ (list_calls (world (ArduinoApp.prepareUploadPort env uploadProperties verbose w))
      <= S (list_calls w))%nat.
Proof.
  revert Hreturns. unfold ArduinoApp.prepareUploadPort. run_m. rewrite Hnowait.
  destruct (Properties.get uploadProperties "upload.use_1200bps_touch" === Js.str "true");
    cbv beta iota.
  - destruct (ArduinoApp.some_comName (serial_list env (list_calls w)) (port (dc w)));
      destruct verbose; cbv beta iota;
      destruct (serial_open_ok env); destruct (serial_stop_ok env); cbv beta iota;
      cbn [res world list_calls Js.strict_eq];
      intros Hreturns; try discriminate Hreturns;
      inversion Hreturns; (split; [reflexivity | lia]).
  - cbn [res world list_calls Js.strict_eq].
    intros Hreturns. inversion Hreturns. split; [reflexivity | lia].
Qed.

(** The touch alone, on a board that is there. *)
Lemma without_wait_the_port_is_not_replaced_witness :
  Js.str "/dev/ttyACM0" = port (dc (Demo.project (Js.str "build")))
  /\ (list_calls
        (world (ArduinoApp.prepareUploadPort Demo.standard
                  [("upload.use_1200bps_touch", Js.str "true")] false
                  (Demo.project (Js.str "build"))))
      <= 1)%nat.
Proof.
  exact (without_wait_the_port_is_not_replaced Demo.standard
           [("upload.use_1200bps_touch", Js.str "true")] false
           (Demo.project (Js.str "build")) (Js.str "/dev/ttyACM0") eq_refl eq_refl).
Defined.

Lemma polls_touch_no_handle (evs : list Event) :
  forallb is_poll evs = true -> existsb is_serial_handle evs = false.
Proof.
  induction evs as [| e evs IH]; intros Hpolls; [reflexivity |].
  cbn [forallb] in Hpolls. apply andb_prop in Hpolls. destruct Hpolls as [He Hevs].
  cbn [existsb]. rewrite (IH Hevs).
  destruct e; try discriminate He; reflexivity.
Qed.

(** X12.  When the configured port is not among the devices enumerated
    first, the preparation does not open (or stop) any port, and it cannot
    fail: it returns a port or [undefined]. *)
Theorem absent_port_is_never_opened
    (env : Env) (uploadProperties : Properties.t) (verbose : bool) (w : World)
    (Habsent : ArduinoApp.some_comName (serial_list env (list_calls w)) (port (dc w))
               = false) :
  let o := ArduinoApp.prepareUploadPort env uploadProperties verbose w in
  existsb is_serial_handle (events o) = false
  /\ exists v, res o = Ok v.
Proof.
  cbv zeta. unfold ArduinoApp.prepareUploadPort. run_m.
  destruct (Properties.get uploadProperties "upload.use_1200bps_touch" === Js.str "true");
    cbv beta iota; [| split; [reflexivity | eexists; reflexivity]].
  rewrite Habsent. cbv beta iota.
  destruct (Properties.get uploadProperties "upload.wait_for_upload_port"
            === Js.str "true");
    cbv beta iota; [| split; [reflexivity | eexists; reflexivity]].
  match goal with
  | |- context [ArduinoApp.waitForUploadPort ?en ?u ?b ?w'] =>
      pose proof (waitForUploadPort_loop_polls en 40 u b 0 w') as Hpolls;
      destruct (waitForUploadPort_loop_bounded en u 40 40 0 b w' ltac:(lia) ltac:(lia))
        as [[a Ha] _];
      unfold ArduinoApp.waitForUploadPort;
      destruct (ArduinoApp.waitForUploadPort_loop en 40 u b 0 w') as [r ev w2]
  end.
  cbn [res events] in Hpolls, Ha. subst r. cbv beta iota. cbn [events res app].
  split; [| eexists; reflexivity].
  cbn [existsb is_serial_handle orb].
  rewrite !existsb_app, (polls_touch_no_handle ev Hpolls). reflexivity.
Qed.

(** The board is not plugged in: ttyS0 is all there is. *)
Lemma absent_port_is_never_opened_witness :
  existsb is_serial_handle
    (events (ArduinoApp.prepareUploadPort
               (Demo.env (Some Demo.leonardo) "arduino-builder" Demo.disk Demo.gone true)
               touch_and_wait false (Demo.project (Js.str "build"))))
  = false.
Proof.
  exact (proj1 (absent_port_is_never_opened
                  (Demo.env (Some Demo.leonardo) "arduino-builder" Demo.disk Demo.gone true)
                  touch_and_wait false (Demo.project (Js.str "build")) eq_refl)).
Defined.

(** ** The wait after the upload *)

Lemma waitForPort_loop_bounded (env : Env) (p : Js.value) :
  forall (k fuel : nat) (elapsed : Z) (w : World),
    (k <= fuel)%nat ->
    (elapsed = 2000 - 250 * Z.of_nat k)%Z ->
    let o := ArduinoApp.waitForPort_loop env fuel p elapsed w in
    res o = Ok tt
    /\ (list_calls w <= list_calls (world o) <= k + list_calls w)%nat
    /\ ((0 < k)%nat -> (list_calls w < list_calls (world o))%nat)
    /\ (0 <= total_delay (events o) <= 250 * Z.of_nat k)%Z
    /\ listening (world o) = listening w
    /\ dc (world o) = dc w.
Proof.
  induction k as [| k IH]; intros fuel elapsed w Hfuel Htime.
  - assert (Hge : (elapsed <? 2000)%Z = false) by (apply Z.ltb_ge; lia).
    destruct fuel; cbn [ArduinoApp.waitForPort_loop]; rewrite Hge;
      cbn; repeat split; lia.
  - destruct fuel as [| fuel]; [lia |].
    cbn [ArduinoApp.waitForPort_loop].
    assert (Hlt : (elapsed <? 2000)%Z = true) by (apply Z.ltb_lt; lia).
    rewrite Hlt. run_m.
    destruct (ArduinoApp.some_comName (serial_list env (list_calls w)) p).
    { cbn [list_calls listening dc total_delay app]. repeat split; lia. }
    cbv beta iota.
    match goal with
    | |- context [ArduinoApp.waitForPort_loop env fuel p ?e ?w'] =>
        specialize (IH fuel e w' ltac:(lia) ltac:(lia));
        destruct (ArduinoApp.waitForPort_loop env fuel p e w') as [r ev w2]
    end.
    cbn [res events world list_calls listening dc] in IH.
    destruct IH as [Hres [Hcalls [_ [Hdelay [Hlistening Hdc]]]]].
    cbn [app total_delay res events world].
    repeat split; try lia; assumption.
Qed.

(** X13.  The wait after the upload always returns normally: after the
    fixed delay of 1000 ms it enumerates the devices at least once and at
    most 8 times, spends between 1000 and 3000 ms in delays altogether, and
    leaves the listener and the device context as they were. *)
Theorem wait_after_upload_is_bounded (env : Env) (p : Js.value) (w : World) :
  let o := ArduinoApp.waitForPort env p w in
  res o = Ok tt
  /\ (list_calls w < list_calls (world o) <= 8 + list_calls w)%nat
  /\ (1000 <= total_delay (events o) <= 3000)%Z
  /\ listening (world o) = listening w
  /\ dc (world o) = dc w.
Proof.
  cbv zeta. unfold ArduinoApp.waitForPort. run_m.
  destruct (waitForPort_loop_bounded env p 8 8 0 w ltac:(lia) ltac:(lia))
    as [Hres [Hcalls [Hmore [Hdelay [Hlistening Hdc]]]]].
  destruct (ArduinoApp.waitForPort_loop env 8 p 0 w) as [r ev w2].
  cbn [res events world app total_delay] in *.
  repeat split; try assumption; lia.
Qed.

Lemma waitForPort_loop_stops (env : Env) (p : Js.value) :
  forall (k fuel : nat) (elapsed : Z) (w : World),
    (k < fuel)%nat ->
    (elapsed + 250 * Z.of_nat k < 2000)%Z ->
    (forall j, (j < k)%nat -> ArduinoApp.some_comName (poll env w j) p = false) ->
    ArduinoApp.some_comName (poll env w k) p = true ->
    let o := ArduinoApp.waitForPort_loop env fuel p elapsed w in
    res o = Ok tt
    /\ list_calls (world o) = (S k + list_calls w)%nat
    /\ total_delay (events o) = (250 * Z.of_nat k)%Z.
Proof.
  induction k as [| k IH]; intros fuel elapsed w Hfuel Htime Habsent Hback;
    (destruct fuel as [| fuel]; [lia |]);
    cbn [ArduinoApp.waitForPort_loop];
    (assert (Hlt : (elapsed <? 2000)%Z = true) by (apply Z.ltb_lt; lia));
    rewrite Hlt; run_m;
    change (serial_list env (list_calls w)) with (poll env w 0).
  - rewrite Hback. repeat split.
  - rewrite (Habsent 0%nat ltac:(lia)). cbv beta iota.
    match goal with
    | |- context [ArduinoApp.waitForPort_loop env fuel p ?e ?w'] =>
        specialize (IH fuel e w');
        assert (Hcalls : list_calls w' = S (list_calls w)) by reflexivity;
        destruct (ArduinoApp.waitForPort_loop env fuel p e w') as [r ev w2]
    end.
    cbn [res world events] in IH |- *. cbn [app total_delay].
    assert (Hgoal : r = Ok tt
                    /\ list_calls w2 = (S k + S (list_calls w))%nat
                    /\ total_delay ev = (250 * Z.of_nat k)%Z).
    { apply IH.
      + lia.
      + lia.
      + intros j Hj. rewrite (poll_shift env w _ j Hcalls). apply Habsent. lia.
      + rewrite (poll_shift env w _ k Hcalls). exact Hback. }
    destruct Hgoal as [Hr [Hc Hd]]. repeat split; [exact Hr | lia | lia].
Qed.

(** X14.  The wait after the upload stops at the first enumeration that
    holds the port: when that is the [k]-th one ([k] counted from 0, below
    8), it has made [k + 1] enumerations and spent 1000 + 250 * k ms. *)
Theorem wait_after_upload_stops_when_port_is_back
    (env : Env) (p : Js.value) (w : World) (k : nat)
    (Hk : (k < 8)%nat)
    (Habsent : forall j, (j < k)%nat -> ArduinoApp.some_comName (poll env w j) p = false)
    (Hback : ArduinoApp.some_comName (poll env w k) p = true) :
  let o := ArduinoApp.waitForPort env p w in
  res o = Ok tt
  /\ list_calls (world o) = (S k + list_calls w)%nat
  /\ total_delay (events o) = (1000 + 250 * Z.of_nat k)%Z.
Proof.
  cbv zeta. unfold ArduinoApp.waitForPort. run_m.
  destruct (waitForPort_loop_stops env p k 8 0 w Hk ltac:(lia) Habsent Hback)
    as [Hres [Hcalls Hdelay]].
  destruct (ArduinoApp.waitForPort_loop env 8 p 0 w) as [r ev w2].
  cbn [res events world app total_delay] in *.
  repeat split; [exact Hres | exact Hcalls | lia].
Qed.

(** The board is back on ttyACM0 at the second enumeration. *)
Lemma wait_after_upload_stops_when_port_is_back_witness :
  let o := ArduinoApp.waitForPort
             (Demo.env (Some Demo.leonardo) "arduino-builder" Demo.disk Demo.board_back true)
             (Js.str "/dev/ttyACM0") (Demo.project (Js.str "build")) in
  res o = Ok tt
  /\ list_calls (world o) = 2%nat
  /\ total_delay (events o) = 1250%Z.
Proof.
  refine (wait_after_upload_stops_when_port_is_back
            (Demo.env (Some Demo.leonardo) "arduino-builder" Demo.disk Demo.board_back true)
            (Js.str "/dev/ttyACM0") (Demo.project (Js.str "build")) 1 _ _ _).
  - lia.
  - intros j Hj. destruct j; [reflexivity | lia].
  - reflexivity.
Defined.

(** ** The guards of [upload] and [verify] *)

(** X15.  With no board selected, [upload] notifies the user error
    NO_BOARD_SELECTED and returns: the listener is not paused, no port is
    touched and no process is spawned. *)
Theorem upload_without_board_only_notifies
    (env : Env) (w : World) (Hnone : currentBoard env = None) :
  ArduinoApp.upload env w
  = mkOut (Ok tt) [NotifyUserError "getBoardBuildString" (NO_BOARD_SELECTED env)] w.
Proof.
  unfold ArduinoApp.upload, ArduinoApp.getBoardBuildString.
  rewrite Hnone. reflexivity.
Qed.

Lemma upload_without_board_only_notifies_witness :
  ArduinoApp.upload (Demo.env None "arduino-builder" Demo.disk Demo.steady true)
    (Demo.project (Js.str "build"))
  = mkOut (Ok tt)
      [NotifyUserError "getBoardBuildString" "Please select the board type first."]
      (Demo.project (Js.str "build")).
Proof.
  exact (upload_without_board_only_notifies
           (Demo.env None "arduino-builder" Demo.disk Demo.steady true)
           (Demo.project (Js.str "build")) eq_refl).
Defined.

(** X16.  A selected board whose build configuration is the empty string
    stops [verify] and [upload] like a missing board, but silently: they
    return without a single call, not even a message to the user. *)
Theorem empty_build_config_returns_silently
    (env : Env) (b : Board) (output_ : string) (w : World)
    (Hboard : currentBoard env = Some b)
    (Hempty : getBuildConfig b = "") :
  ArduinoApp.verify env output_ w = mkOut (Ok None) [] w
  /\ ArduinoApp.upload env w = mkOut (Ok tt) [] w.
Proof.
  unfold ArduinoApp.verify, ArduinoApp.upload, ArduinoApp.getBoardBuildString.
  rewrite Hboard, Hempty. split; reflexivity.
Qed.

Lemma empty_build_config_returns_silently_witness :
  ArduinoApp.verify
    (Demo.env (Some {| getBuildConfig := ""; getPackageName := "arduino";
                       architecture := "avr"; board := "leonardo" |})
              "arduino-builder" Demo.disk Demo.steady true)
    "" (Demo.project (Js.str "build"))
  = mkOut (Ok None) [] (Demo.project (Js.str "build")).
Proof.
  exact (proj1 (empty_build_config_returns_silently
                  (Demo.env (Some {| getBuildConfig := ""; getPackageName := "arduino";
                                     architecture := "avr"; board := "leonardo" |})
                            "arduino-builder" Demo.disk Demo.steady true)
                  _ "" (Demo.project (Js.str "build")) eq_refl eq_refl)).
Defined.

(** X17.  With a board but no workspace folder ([rootPath] undefined or
    empty), [verify] and [upload] show the warning "Cannot find the sketch
    file." and return; nothing else is called. *)
Theorem without_workspace_only_a_warning
    (env : Env) (b : Board) (output_ : string) (w : World)
    (Hboard : currentBoard env = Some b)
    (Hconfig : getBuildConfig b <> "")
    (Hroot : Js.truthy (rootPath env) = false) :
  ArduinoApp.verify env output_ w
  = mkOut (Ok None) [ShowWarningMessage "Cannot find the sketch file."] w
  /\ ArduinoApp.upload env w
  = mkOut (Ok tt) [ShowWarningMessage "Cannot find the sketch file."] w.
Proof.
  apply String.eqb_neq in Hconfig.
  unfold ArduinoApp.verify, ArduinoApp.upload, ArduinoApp.getBoardBuildString.
  rewrite Hboard. run_m. rewrite Hconfig, Hroot. split; reflexivity.
Qed.

(** No workspace folder is open. *)
Lemma without_workspace_only_a_warning_witness :
  ArduinoApp.upload (Demo.workspace Js.undefined Js.undefined "arduino-builder" false)
    (Demo.project (Js.str "build"))
  = mkOut (Ok tt) [ShowWarningMessage "Cannot find the sketch file."]
      (Demo.project (Js.str "build")).
Proof.
  refine (proj2 (without_workspace_only_a_warning
                   (Demo.workspace Js.undefined Js.undefined "arduino-builder" false)
                   Demo.leonardo "" (Demo.project (Js.str "build")) eq_refl _ eq_refl)).
  discriminate.
Defined.

(** X18.  Without a configured port, [upload] never gets to the upload:
    however the run ends (the error message about the port, an earlier
    guard, or a sketch that cannot be found), the listener is not paused,
    no serial device is enumerated or opened, the serial monitor is left
    alone and no process is spawned. *)
Theorem upload_without_port_touches_nothing
    (env : Env) (w : World) (Hport : Js.truthy (port (dc w)) = false) :
  let o := ArduinoApp.upload env w in
  existsb is_pause (events o) = false
  /\ existsb touches_device (events o) = false
  /\ listening (world o) = listening w.
Proof.
  cbv zeta.
  unfold ArduinoApp.upload, ArduinoApp.getBoardBuildString, ArduinoApp.sketch_missing,
    ArduinoApp.getMainSketch.
  destruct (currentBoard env) as [b |]; [| repeat split].
  run_m.
  destruct (getBuildConfig b =? ""); [repeat split |].
  destruct (Js.truthy (rootPath env)); cbn [negb]; [| repeat split].
  destruct (Js.truthy (sketch (dc w))); cbn [negb]; cbv beta iota.
  - destruct (strings_of [rootPath env; sketch (dc w)]) as [ss |]; cbv beta iota;
      [| repeat split].
    destruct (fileExistsSync env (path_join env ss)); cbn [negb]; cbv beta iota;
      cbn [dc port sketch].
    + rewrite Hport. repeat split.
    + destruct (Js.truthy (resolveMainSketch_result env)); cbn [negb]; cbv beta iota;
        cbn [dc port sketch]; rewrite ?Hport; repeat split.
  - cbn [dc port sketch].
    destruct (Js.truthy (resolveMainSketch_result env)); cbn [negb]; cbv beta iota;
      cbn [dc port sketch]; rewrite ?Hport; repeat split.
Qed.

Lemma upload_without_port_touches_nothing_witness :
  existsb touches_device (events (ArduinoApp.upload Demo.standard Demo.project_without_port))
  = false.
Proof.
  exact (proj1 (proj2 (upload_without_port_touches_nothing
                         Demo.standard Demo.project_without_port eq_refl))).
Defined.

Example upload_without_port_message :
  ArduinoApp.upload Demo.standard Demo.project_without_port
  = mkOut (Ok tt) [ShowErrorMessage "Please specify the upload serial port."]
      Demo.project_without_port.
Proof. reflexivity. Qed.

(** X19.  When the device context names no sketch and the search for the
    main sketch finds none, [verify] and [upload] show "No sketch file was
    found. ..." and throw the error "No sketch file was found.": the search
    and the message are the only calls, so nothing is saved, the listener is
    not paused and no process is spawned. *)
Theorem missing_sketch_is_thrown
    (env : Env) (b : Board) (output_ : string) (w : World)
    (Hboard : currentBoard env = Some b)
    (Hconfig : getBuildConfig b <> "")
    (Hroot : Js.truthy (rootPath env) = true)
    (Hsketch : Js.truthy (sketch (dc w)) = false)
    (Hfound : Js.truthy (resolveMainSketch_result env) = false) :
  let calls :=
    [ResolveMainSketch;
     ShowErrorMessage
       "No sketch file was found. Please specify the sketch in the arduino.json file"] in
  let w' :=
    {| listening := listening w;
       list_calls := list_calls w;
       dc := {| sketch := resolveMainSketch_result env;
                port := port (dc w);
                output := output (dc w) |} |} in
  ArduinoApp.verify env output_ w
  = mkOut (Throw (Error "No sketch file was found.")) calls w'
  /\ ArduinoApp.upload env w
  = mkOut (Throw (Error "No sketch file was found.")) calls w'.
Proof.
  apply String.eqb_neq in Hconfig. cbv zeta.
  unfold ArduinoApp.verify, ArduinoApp.upload, ArduinoApp.getBoardBuildString,
    ArduinoApp.sketch_missing, ArduinoApp.getMainSketch.
  rewrite Hboard. run_m. rewrite Hconfig, Hroot. cbn [negb]. cbv beta iota.
  rewrite Hsketch. cbn [negb]. cbv beta iota. cbn [dc sketch].
  rewrite Hfound. cbn [negb]. cbv beta iota. split; reflexivity.
Qed.

Lemma missing_sketch_is_thrown_witness :
  res (ArduinoApp.verify (Demo.workspace (Js.str "/ws") Js.undefined "command" false) ""
         Demo.project_without_sketch)
  = Throw (Error "No sketch file was found.").
Proof.
  refine (f_equal res
            (proj1 (missing_sketch_is_thrown
                      (Demo.workspace (Js.str "/ws") Js.undefined "command" false)
                      Demo.leonardo "" Demo.project_without_sketch
                      eq_refl _ eq_refl eq_refl eq_refl))).
  discriminate.
Defined.



(** ** The strategies of [upload] *)

Lemma truthy_is_string (v : Js.value) :
  Js.truthy v = true -> exists s, v = Js.str s.
Proof.
  destruct v as [| | s]; intros H; try discriminate H. exists s. reflexivity.
Qed.

Lemma uploadByCommand_returns (env : Env) (boardDescriptor : string) (w : World) :
  exists evs, ArduinoApp.uploadByCommand env boardDescriptor w = mkOut (Ok tt) evs w.
Proof.
  unfold ArduinoApp.uploadByCommand. run_m.
  match goal with
  | |- context [spawn_outcome ?e ?c ?a] => destruct (spawn_outcome e c a) as [| code]
  end;
  cbv beta iota; destruct (closeSerialMonitor_result env); cbv beta iota;
  eexists; reflexivity.
Qed.

Lemma uploadByArduinoIde_returns (env : Env) (boardDescriptor : string) (w : World) :
  Js.truthy (rootPath env) = true ->
  Js.truthy (sketch (dc w)) = true ->
  exists evs, ArduinoApp.uploadByArduinoIde env boardDescriptor w = mkOut (Ok tt) evs w.
Proof.
  intros Hroot Hsketch.
  destruct (truthy_is_string _ Hroot) as [root Hr].
  destruct (truthy_is_string _ Hsketch) as [sk Hs].
  unfold ArduinoApp.uploadByArduinoIde. run_m. rewrite Hr, Hs. cbn [strings_of].
  cbv beta iota.
  match goal with
  | |- context [spawn_outcome ?e ?c ?a] => destruct (spawn_outcome e c a) as [| code]
  end;
  cbv beta iota; destruct (closeSerialMonitor_result env); cbv beta iota;
  eexists; reflexivity.
Qed.

Lemma last_after_resume (pre evs : list Event) :
  last (pre ++ PauseListening :: evs ++ [ResumeListening]) ChannelShow = ResumeListening.
Proof.
  replace (pre ++ PauseListening :: evs ++ [ResumeListening])%list
    with ((pre ++ PauseListening :: evs) ++ [ResumeListening])%list
    by (rewrite <- app_assoc; reflexivity).
  apply last_last.
Qed.

Ltac resume_after_strategy Hroot Hsketch :=
  intros _;
  match goal with
  | |- context [if ?c then ArduinoApp.uploadByCommand _ _ else _] => destruct c
  end;
  [ match goal with
    | |- context [ArduinoApp.uploadByCommand ?e ?bd ?w'] =>
        let evs := fresh "evs" in
        let Hevs := fresh "Hevs" in
        destruct (uploadByCommand_returns e bd w') as [evs Hevs]; rewrite Hevs;
        cbv beta iota; cbn [app]; repeat split;
        first [exact (last_after_resume [] evs)
              | exact (last_after_resume [ResolveMainSketch] evs)]
    end
  | match goal with
    | |- context [ArduinoApp.uploadByArduinoIde ?e ?bd ?w'] =>
        let evs := fresh "evs" in
        let Hevs := fresh "Hevs" in
        destruct (uploadByArduinoIde_returns e bd w' Hroot Hsketch) as [evs Hevs];
        rewrite Hevs;
        cbv beta iota; cbn [app]; repeat split;
        first [exact (last_after_resume [] evs)
              | exact (last_after_resume [ResolveMainSketch] evs)]
    end ].

(** X21.  With the builder "command" or the Arduino IDE (any builder but
    "arduino-builder"), an upload that has paused the hot-plug listener
    returns normally with the listener resumed, [resumeListening] being its
    last call: these two strategies turn a failure of their process into a
    message and throw nothing. *)
Theorem listener_is_resumed_outside_the_pattern_strategy
    (env : Env) (w : World)
    (Hbuilder : builder (vscodeSettings env) <> "arduino-builder")
    (Hpaused : existsb is_pause (events (ArduinoApp.upload env w)) = true) :
  let o := ArduinoApp.upload env w in
  res o = Ok tt
  /\ listening (world o) = true
  /\ last (events o) ChannelShow = ResumeListening.
Proof.
  apply String.eqb_neq in Hbuilder. cbv zeta. revert Hpaused.
  unfold ArduinoApp.upload, ArduinoApp.getBoardBuildString, ArduinoApp.sketch_missing,
    ArduinoApp.getMainSketch.
  destruct (currentBoard env) as [b |]; [| discriminate].
  run_m. rewrite Hbuilder.
  destruct (getBuildConfig b =? ""); [discriminate |].
  destruct (Js.truthy (rootPath env)) eqn:Hroot; cbn [negb]; [| discriminate].
  destruct (Js.truthy (sketch (dc w))) eqn:Hsketch; cbn [negb]; cbv beta iota.
  - destruct (strings_of [rootPath env; sketch (dc w)]) as [ss |]; cbv beta iota;
      [| discriminate].
    destruct (fileExistsSync env (path_join env ss)); cbn [negb]; cbv beta iota;
      cbn [dc port sketch].
    + destruct (Js.truthy (port (dc w))); cbn [negb]; cbv beta iota; [| discriminate].
      resume_after_strategy Hroot Hsketch.
    + destruct (Js.truthy (resolveMainSketch_result env)) eqn:Hfound;
        cbn [negb]; cbv beta iota; cbn [dc port sketch]; [| discriminate].
      destruct (Js.truthy (port (dc w))); cbn [negb]; cbv beta iota; [| discriminate].
      resume_after_strategy Hroot Hfound.
  - cbn [dc port sketch].
    destruct (Js.truthy (resolveMainSketch_result env)) eqn:Hfound;
      cbn [negb]; cbv beta iota; cbn [dc port sketch]; [| discriminate].
    destruct (Js.truthy (port (dc w))); cbn [negb]; cbv beta iota; [| discriminate].
    resume_after_strategy Hroot Hfound.
Qed.

(** "make upload" exits with code 2. *)
Lemma listener_is_resumed_outside_the_pattern_strategy_witness :
  let o := ArduinoApp.upload
             (exiting (Demo.workspace (Js.str "/ws") Js.undefined "command" true) 2)
             (Demo.project (Js.str "build")) in
  res o = Ok tt
  /\ listening (world o) = true
  /\ last (events o) ChannelShow = ResumeListening.
Proof.
  refine (listener_is_resumed_outside_the_pattern_strategy
            (exiting (Demo.workspace (Js.str "/ws") Js.undefined "command" true) 2)
            (Demo.project (Js.str "build")) _ eq_refl).
  discriminate.
Defined.

(** X22.  With the builder "command" and with the Arduino IDE, the serial
    monitor is reopened exactly when it was open before the upload and the
    process exited with code 0: after a failed upload it stays closed.  In
    both cases the strategy itself returns normally. *)
Theorem monitor_is_reopened_only_after_success
    (env : Env) (boardDescriptor : string) (w : World) (code : Z) (root sk : string)
    (Hroot : rootPath env = Js.str root) (Hsketch : sketch (dc w) = Js.str sk) :
  let byCommand := ArduinoApp.uploadByCommand (exiting env code) boardDescriptor w in
  let byIde := ArduinoApp.uploadByArduinoIde (exiting env code) boardDescriptor w in
  res byCommand = Ok tt
  /\ existsb is_open_monitor (events byCommand)
     = closeSerialMonitor_result env && (code =? 0)%Z
  /\ res byIde = Ok tt
  /\ existsb is_open_monitor (events byIde)
     = closeSerialMonitor_result env && (code =? 0)%Z.
Proof.
  cbv zeta. unfold ArduinoApp.uploadByCommand, ArduinoApp.uploadByArduinoIde.
  run_m. env_simpl. rewrite Hroot, Hsketch. cbn [strings_of]. cbv beta iota.
  destruct (spawn_exit_cases code) as [[Hs Hz] | [Hs Hz]]; rewrite Hs, Hz;
    cbv beta iota; destruct (closeSerialMonitor_result env); cbv beta iota;
    repeat split.
Qed.

(** The monitor was open and "make upload" exits with code 2. *)
Lemma monitor_is_reopened_only_after_success_witness :
  existsb is_open_monitor
    (events (ArduinoApp.uploadByCommand
               (exiting (Demo.workspace (Js.str "/ws") Js.undefined "command" true) 2)
               "arduino:avr:leonardo" (Demo.project (Js.str "build"))))
  = false.
Proof.
  exact (proj1 (proj2 (monitor_is_reopened_only_after_success
                         (Demo.workspace (Js.str "/ws") Js.undefined "command" true)
                         "arduino:avr:leonardo" (Demo.project (Js.str "build")) 2
                         "/ws" "sketch.ino" eq_refl eq_refl))).
Defined.

(** ** [verify] from end to end *)

Lemma verify_strategies_settle
    (env : Env) (boardDescriptor output_ : string) (w : World) (code : Z)
    (root sk : string) :
  rootPath env = Js.str root ->
  sketch (dc w) = Js.str sk ->
  let settled (o : Out bool) := res o = Ok (code =? 0)%Z /\ world o = w in
  settled (ArduinoApp.verifyByCommand (exiting env code) boardDescriptor output_ w)
  /\ settled (ArduinoApp.verifyByArduinoBuilder (exiting env code) boardDescriptor output_ w)
  /\ settled (ArduinoApp.verifyByArduinoIde (exiting env code) boardDescriptor output_ w).
Proof.
  intros Hroot Hsketch settled. subst settled. cbv beta.
  repeat split.
  all: try (unfold ArduinoApp.verifyByCommand).
  all: try (unfold ArduinoApp.verifyByArduinoBuilder).
  all: try (unfold ArduinoApp.verifyByArduinoIde).
  all: run_m; env_simpl; rewrite ?Hroot, ?Hsketch; cbn [strings_of].
  all: try (destruct (Js.or (Js.str output_) (output (dc w))) as [| | out];
            cbn [Js.truthy]; [| | destruct (negb (out =? ""))]; cbv beta iota).
  all: destruct (spawn_exit_cases code) as [[Hs Hz] | [Hs Hz]];
       rewrite ?Hs, ?Hz; cbv beta iota.
  all: reflexivity.
Qed.

(** X23.  With a board, a workspace folder and a sketch that is on disk,
    [verify] returns [true] when the process of the selected builder exits
    with code 0 and [false] for every other exit code, whichever of the
    three builders is configured; it throws nothing and leaves the state as
    it was. *)
Theorem verify_returns_whether_the_build_succeeded
    (env : Env) (b : Board) (output_ : string) (w : World) (code : Z) (root sk : string)
    (Hboard : currentBoard env = Some b)
    (Hconfig : getBuildConfig b <> "")
    (Hroot : rootPath env = Js.str root)
    (Hopen : root <> "")
    (Hsketch : sketch (dc w) = Js.str sk)
    (Hnamed : sk <> "")
    (Hondisk : fileExistsSync env (path_join env [root; sk]) = true) :
  let o := ArduinoApp.verify (exiting env code) output_ w in
  res o = Ok (Some (code =? 0)%Z) /\ world o = w.
Proof.
  apply String.eqb_neq in Hconfig. apply String.eqb_neq in Hopen.
  apply String.eqb_neq in Hnamed. cbv zeta.
  destruct (verify_strategies_settle env (getBuildConfig b) output_ w code root sk
              Hroot Hsketch) as [[Hc1 Hc2] [[Hb1 Hb2] [Hi1 Hi2]]].
  unfold ArduinoApp.verify, ArduinoApp.getBoardBuildString, ArduinoApp.sketch_missing.
  run_m. env_simpl. rewrite Hboard. cbv beta iota.
  rewrite Hconfig, Hroot. cbn [Js.truthy]. rewrite Hopen. cbn [negb]. cbv beta iota.
  rewrite Hsketch. cbn [Js.truthy strings_of]. rewrite Hnamed. cbn [negb]. cbv beta iota.
  unfold fileExistsSync in Hondisk |- *. env_simpl.
  destruct (fs_node env (path_join env [root; sk])) as [[| entries] |];
    try discriminate Hondisk.
  cbn [negb]. cbv beta iota.
  destruct (builder (vscodeSettings env) =? "command");
    [| destruct (builder (vscodeSettings env) =? "arduino-builder")].
  - destruct (ArduinoApp.verifyByCommand (exiting env code) (getBuildConfig b) output_ w)
      as [r ev w2].
    cbn [res world] in Hc1, Hc2. subst r w2. split; reflexivity.
  - destruct (ArduinoApp.verifyByArduinoBuilder (exiting env code) (getBuildConfig b)
                output_ w) as [r ev w2].
    cbn [res world] in Hb1, Hb2. subst r w2. split; reflexivity.
  - destruct (ArduinoApp.verifyByArduinoIde (exiting env code) (getBuildConfig b)
                output_ w) as [r ev w2].
    cbn [res world] in Hi1, Hi2. subst r w2. split; reflexivity.
Qed.

(** The Arduino IDE exits with code 1 on the demo project. *)
Lemma verify_returns_whether_the_build_succeeded_witness :
  res (ArduinoApp.verify (exiting (Demo.workspace (Js.str "/ws") Js.undefined "ide" false) 1)
         "" (Demo.project (Js.str "build")))
  = Ok (Some false).
Proof.
  refine (proj1 (verify_returns_whether_the_build_succeeded
                   (Demo.workspace (Js.str "/ws") Js.undefined "ide" false)
                   Demo.leonardo "" (Demo.project (Js.str "build")) 1 "/ws" "sketch.ino"
                   eq_refl _ eq_refl _ eq_refl _ eq_refl));
    discriminate.
Defined.

(** ** The output folder of [verify] *)

Lemma explicit_output_wins (output_ : string) (v : Js.value) :
  output_ <> "" -> Js.or (Js.str output_) v = Js.str output_.
Proof.
  intros H. apply String.eqb_neq in H. unfold Js.or. cbn [Js.truthy].
  rewrite H. reflexivity.
Qed.

(** X24.  An output folder given to [verify] overrides the one of the
    device context: with a non-empty [output] argument, the builder and the
    IDE strategy make the same calls and return the same result whatever
    [dc.output] holds, and the builder creates <workspace>/<output>. *)
Theorem explicit_output_overrides_device_context
    (env : Env) (boardDescriptor output_ : string) (w : World) (other : Js.value)
    (root sk : string)
    (Hgiven : output_ <> "")
    (Hroot : rootPath env = Js.str root) (Hsketch : sketch (dc w) = Js.str sk) :
  let builder_run := ArduinoApp.verifyByArduinoBuilder env boardDescriptor output_ in
  let ide_run := ArduinoApp.verifyByArduinoIde env boardDescriptor output_ in
  events (builder_run (with_output w other)) = events (builder_run w)
  /\ res (builder_run (with_output w other)) = res (builder_run w)
  /\ In (Mkdir (path_join env [root; output_])) (events (builder_run w))
  /\ events (ide_run (with_output w other)) = events (ide_run w)
  /\ res (ide_run (with_output w other)) = res (ide_run w).
Proof.
  cbv zeta. pose proof (String.eqb_neq output_ "") as [_ Hneq]. specialize (Hneq Hgiven).
  unfold ArduinoApp.verifyByArduinoBuilder, ArduinoApp.verifyByArduinoIde.
  run_m. cbn [with_output dc sketch output].
  rewrite !(explicit_output_wins output_ _ Hgiven), Hroot, Hsketch.
  cbn [Js.truthy strings_of]. rewrite Hneq. cbn [negb]. cbv beta iota.
  repeat match goal with
         | |- context [spawn_outcome ?e ?c ?a] => destruct (spawn_outcome e c a)
         end;
    cbv beta iota; cbn [app In]; repeat split; auto 10.
Qed.

(** The context says "build", the argument says "out". *)
Lemma explicit_output_overrides_device_context_witness :
  In (Mkdir "/ws/out")
     (events (ArduinoApp.verifyByArduinoBuilder Demo.standard "arduino:avr:leonardo" "out"
                (Demo.project (Js.str "build")))).
Proof.
  refine (proj1 (proj2 (proj2 (explicit_output_overrides_device_context
                                 Demo.standard "arduino:avr:leonardo" "out"
                                 (Demo.project (Js.str "build")) Js.undefined
                                 "/ws" "sketch.ino" _ eq_refl eq_refl)))).
  discriminate.
Defined.

(** ** Upload by pattern without a platform *)

(** X25.  When the platform directory cannot be resolved (nothing at the
    built-in path, no first entry in the user's directory), the upload by
    pattern shows "Cannot found properties for upload." and returns: it
    loads no property file, closes no monitor, touches no port and spawns
    nothing. *)
Theorem upload_by_pattern_needs_a_platform
    (env : Env) (b : Board) (boardDescriptor : string) (w : World)
    (Hboard : currentBoard env = Some b)
    (Hnone : fs_node env (builtInPath env b) = None)
    (Hempty : forall version others,
        fs_node env (externalPath env b) <> Some (Directory (version :: others))) :
  ArduinoApp.uploadByPattern env boardDescriptor w
  = mkOut (Ok tt) [ShowErrorMessage "Cannot found properties for upload."] w.
Proof.
  assert (Hnull : ArduinoApp.resolvePackagePath env w = mkOut (Ok None) [] w).
  { unfold builtInPath, externalPath in *.
    unfold ArduinoApp.resolvePackagePath. run_m. rewrite Hboard. cbv beta iota.
    rewrite Hnone. cbv beta iota.
    destruct (fs_node env (path_join env [packagePath (settings env); "packages";
                                          getPackageName b; "hardware"; architecture b]))
      as [[| [| version others]] |] eqn:Hext; try reflexivity.
    exfalso. exact (Hempty version others eq_refl). }
  unfold ArduinoApp.uploadByPattern. run_m. rewrite Hnull. reflexivity.
Qed.

(** No platform is on the disk. *)
Lemma upload_by_pattern_needs_a_platform_witness :
  ArduinoApp.uploadByPattern
    (Demo.env (Some Demo.leonardo) "arduino-builder" Demo.disk_bare Demo.steady true)
    "arduino:avr:leonardo" (Demo.project (Js.str "build"))
  = mkOut (Ok tt) [ShowErrorMessage "Cannot found properties for upload."]
      (Demo.project (Js.str "build")).
Proof.
  refine (upload_by_pattern_needs_a_platform
            (Demo.env (Some Demo.leonardo) "arduino-builder" Demo.disk_bare Demo.steady true)
            Demo.leonardo "arduino:avr:leonardo" (Demo.project (Js.str "build"))
            eq_refl eq_refl _).
  intros version others Hfalse. discriminate Hfalse.
Defined.

(** ** The name of a copied example *)

Lemma free_name_test (env : Env) (p : string) :
  negb (fileExistsSync env p) && negb (directoryExistsSync env p) = negb (taken env p).
Proof. unfold taken. rewrite negb_orb. reflexivity. Qed.

Lemma next_candidate (name : string) (c : nat) :
  name ++ "_" ++ Js.string_of_Z (Z.of_nat c + 1) = candidate name (S c).
Proof.
  unfold candidate. replace (Z.of_nat c + 1)%Z with (Z.of_nat (S c)) by lia. reflexivity.
Qed.

Lemma tmpName_loop_finds (env : Env) (name : string) :
  forall (k fuel c : nat),
    (k < fuel)%nat ->
    (forall j, (j < k)%nat -> taken env (candidate name (c + j)) = true) ->
    taken env (candidate name (c + k)) = false ->
    ArduinoApp.tmpName_loop env fuel name (Z.of_nat c) (candidate name c)
    = Some (candidate name (c + k)).
Proof.
  induction k as [| k IH]; intros fuel c Hfuel Htaken Hfree;
    (destruct fuel as [| fuel]; [lia |]);
    cbn [ArduinoApp.tmpName_loop]; rewrite free_name_test.
  - rewrite Nat.add_0_r in Hfree |- *. rewrite Hfree. reflexivity.
  - pose proof (Htaken 0%nat ltac:(lia)) as H0. rewrite Nat.add_0_r in H0.
    rewrite H0. cbn [negb]. rewrite next_candidate.
    replace (Z.of_nat c + 1)%Z with (Z.of_nat (S c)) by lia.
    replace (c + S k)%nat with (S c + k)%nat by lia.
    apply IH.
    + lia.
    + intros j Hj. replace (S c + j)%nat with (c + S j)%nat by lia.
      apply Htaken. lia.
    + replace (S c + k)%nat with (c + S k)%nat by lia. exact Hfree.
Qed.

Lemma tmpName_loop_sound (env : Env) (name : string) :
  forall (fuel c : nat) (r : string),
    ArduinoApp.tmpName_loop env fuel name (Z.of_nat c) (candidate name c) = Some r ->
    exists k,
      (k < fuel)%nat
      /\ r = candidate name (c + k)
      /\ taken env r = false
      /\ forall j, (j < k)%nat -> taken env (candidate name (c + j)) = true.
Proof.
  induction fuel as [| fuel IH]; intros c r Hr; [discriminate Hr |].
  cbn [ArduinoApp.tmpName_loop] in Hr. rewrite free_name_test in Hr.
  destruct (taken env (candidate name c)) eqn:Hc; cbn [negb] in Hr.
  - rewrite next_candidate in Hr.
    replace (Z.of_nat c + 1)%Z with (Z.of_nat (S c)) in Hr by lia.
    destruct (IH (S c) r Hr) as [k [Hk [Heq [Hfree Htaken]]]].
    exists (S k). repeat split.
    + lia.
    + replace (c + S k)%nat with (S c + k)%nat by lia. exact Heq.
    + exact Hfree.
    + intros j Hj. destruct j as [| j].
      * rewrite Nat.add_0_r. exact Hc.
      * replace (c + S j)%nat with (S c + j)%nat by lia. apply Htaken. lia.
  - inversion Hr. subst r. exists 0%nat. repeat split.
    + lia.
    + rewrite Nat.add_0_r. reflexivity.
    + exact Hc.
    + intros j Hj. lia.
Qed.

(** X26.  [tmpName] tries name, name_1, name_2, ... in this order and
    returns the first that is neither a file nor a directory: the name it
    returns is free, every candidate before it is taken, and [fuel]
    iterations give a result exactly when one of the first [fuel]
    candidates is free. *)
Theorem tmpName_is_the_first_free_candidate
    (env : Env) (fuel : nat) (name r : string) :
  ArduinoApp.tmpName env fuel name = Some r
  <-> exists k,
        (k < fuel)%nat
        /\ r = candidate name k
        /\ taken env r = false
        /\ forall j, (j < k)%nat -> taken env (candidate name j) = true.
Proof.
  unfold ArduinoApp.tmpName. split.
  - intros Hr. exact (tmpName_loop_sound env name fuel 0 r Hr).
  - intros [k [Hk [Heq [Hfree Htaken]]]]. subst r.
    exact (tmpName_loop_finds env name k fuel 0 Hk Htaken Hfree).
Qed.

(** Blink is a directory and Blink_1 a file: the copy goes to Blink_2. *)
Lemma tmpName_is_the_first_free_candidate_witness :
  ArduinoApp.tmpName
    (Demo.env (Some Demo.leonardo) "arduino-builder" Demo.disk_with_examples Demo.steady true)
    5 "/home/dev/Arduino/generated_examples/Blink"
  = Some "/home/dev/Arduino/generated_examples/Blink_2".
Proof.
  apply (proj2 (tmpName_is_the_first_free_candidate
                  (Demo.env (Some Demo.leonardo) "arduino-builder"
                            Demo.disk_with_examples Demo.steady true)
                  5 "/home/dev/Arduino/generated_examples/Blink"
                  "/home/dev/Arduino/generated_examples/Blink_2")).
  exists 2%nat. repeat split.
  - lia.
  - intros j Hj. destruct j as [| [| j]]; [reflexivity | reflexivity | lia].
Defined.

(** ** The library paths of the selected board *)

(** X27.  [getDefaultPackageLibPaths] cannot fail and calls nothing: it
    returns no path when no board is selected or when <rootBoardPath>/cores
    is not a directory, and otherwise one normalized path
    <rootBoardPath>/cores/<entry> for every entry of that directory, in the
    order of the listing. *)
Theorem default_library_paths_follow_the_cores
    (env : Env) (rootBoardPath : Board -> string) (normalize : string -> string)
    (w : World) :
  ArduinoApp.getDefaultPackageLibPaths env rootBoardPath normalize w
  = mkOut
      (Ok (match currentBoard env with
           | None => []
           | Some b =>
               match fs_node env (path_join env [rootBoardPath b; "cores"]) with
               | Some (Directory entries) =>
                   map (fun entry =>
                          normalize (path_join env [rootBoardPath b; "cores"; entry]))
                       entries
               | _ => []
               end
           end))
      [] w.
Proof.
  unfold ArduinoApp.getDefaultPackageLibPaths, directoryExistsSync. run_m.
  destruct (currentBoard env) as [b |]; [| reflexivity].
  destruct (fs_node env (path_join env [rootBoardPath b; "cores"])) as [[| entries] |];
    reflexivity.
Qed.

Example default_library_paths_of_the_demo :
  res (ArduinoApp.getDefaultPackageLibPaths
         (Demo.env (Some Demo.leonardo) "arduino-builder" Demo.disk_with_cores Demo.steady true)
         (fun _ => "/opt/arduino/hardware/arduino/avr") (fun p => p)
         (Demo.project Js.undefined))
  = Ok ["/opt/arduino/hardware/arduino/avr/cores/arduino";
        "/opt/arduino/hardware/arduino/avr/cores/tiny"].
Proof. reflexivity. Qed.

(** ** The include path written by [addLibPath] *)

Section IncludePath.

Variable canon : string -> string.
Hypothesis canon_idempotent : forall p, canon (canon p) = canon p.

Lemma each_entries (includePath : option (list string)) (p : string) :
  entries_of (ArduinoApp.addLibPath_each canon includePath p)
  = if existsb (fun e => canon p =? canon e) (entries_of includePath)
    then entries_of includePath
    else (entries_of includePath ++ [canon p])%list.
Proof.
  unfold ArduinoApp.addLibPath_each.
  destruct includePath as [[| first others] |]; cbn [entries_of]; try reflexivity.
  destruct (existsb (fun e => canon p =? canon e) (first :: others)); reflexivity.
Qed.

Lemma existsb_listed (l : list string) (p : string) :
  existsb (fun e => canon p =? canon e) l = true <-> listed canon l p.
Proof.
  rewrite existsb_exists. unfold listed. split.
  - intros [e [He Heq]]. apply String.eqb_eq in Heq. exists e. split; [exact He | ].
    symmetry. exact Heq.
  - intros [e [He Heq]]. exists e. split; [exact He |].
    apply String.eqb_eq. symmetry. exact Heq.
Qed.

Lemma each_extends (includePath : option (list string)) (p : string) :
  exists added,
    entries_of (ArduinoApp.addLibPath_each canon includePath p)
    = (entries_of includePath ++ added)%list
    /\ (added = [] \/ added = [canon p]).
Proof.
  rewrite each_entries.
  destruct (existsb (fun e => canon p =? canon e) (entries_of includePath)).
  - exists []. rewrite app_nil_r. split; [reflexivity | left; reflexivity].
  - exists [canon p]. split; [reflexivity | right; reflexivity].
Qed.

Lemma each_lists (includePath : option (list string)) (p : string) :
  listed canon (entries_of (ArduinoApp.addLibPath_each canon includePath p)) p.
Proof.
  rewrite each_entries.
  destruct (existsb (fun e => canon p =? canon e) (entries_of includePath)) eqn:Hex.
  - apply existsb_listed. exact Hex.
  - exists (canon p). split; [apply in_or_app; right; left; reflexivity |].
    apply canon_idempotent.
Qed.

Lemma all_extends (libPaths : list string) :
  forall includePath,
  exists added,
    entries_of (ArduinoApp.addLibPath_includePath canon includePath libPaths)
    = (entries_of includePath ++ added)%list
    /\ forall a, In a added -> exists p, In p libPaths /\ a = canon p.
Proof.
  unfold ArduinoApp.addLibPath_includePath.
  induction libPaths as [| p libPaths IH]; intros includePath; cbn [fold_left].
  - exists []. rewrite app_nil_r. split; [reflexivity |]. intros a [].
  - destruct (IH (ArduinoApp.addLibPath_each canon includePath p)) as [rest [Hrest Hfrom]].
    destruct (each_extends includePath p) as [added [Hadded Hwhich]].
    exists (added ++ rest)%list. split.
    + rewrite Hrest, Hadded, app_assoc. reflexivity.
    + intros a Ha. apply in_app_or in Ha. destruct Ha as [Ha | Ha].
      * destruct Hwhich as [-> | ->]; [destruct Ha |].
        destruct Ha as [<- | []]. exists p. split; [left; reflexivity | reflexivity].
      * destruct (Hfrom a Ha) as [q [Hq Heq]]. exists q. split; [right; exact Hq | exact Heq].
Qed.

Lemma listed_extends (l added : list string) (p : string) :
  listed canon l p -> listed canon (l ++ added) p.
Proof.
  intros [e [He Heq]]. exists e. split; [apply in_or_app; left; exact He | exact Heq].
Qed.

Lemma all_lists (libPaths : list string) :
  forall includePath p,
    In p libPaths \/ listed canon (entries_of includePath) p ->
    listed canon
      (entries_of (ArduinoApp.addLibPath_includePath canon includePath libPaths)) p.
Proof.
  unfold ArduinoApp.addLibPath_includePath.
  induction libPaths as [| q libPaths IH]; intros includePath p Hp; cbn [fold_left].
  - destruct Hp as [[] | Hp]. exact Hp.
  - apply IH. destruct Hp as [[Heq | Hin] | Hlisted].
    + subst q. right. apply each_lists.
    + left. exact Hin.
    + right. destruct (each_extends includePath q) as [added [Hadded _]].
      rewrite Hadded. apply listed_extends. exact Hlisted.
Qed.

Lemma each_unchanged (includePath : option (list string)) (p : string) :
  listed canon (entries_of includePath) p ->
  ArduinoApp.addLibPath_each canon includePath p = includePath.
Proof.
  intros Hlisted. apply existsb_listed in Hlisted.
  unfold ArduinoApp.addLibPath_each.
  destruct includePath as [[| first others] |]; cbn [entries_of] in Hlisted;
    try discriminate Hlisted.
  rewrite Hlisted. reflexivity.
Qed.

Lemma all_unchanged (libPaths : list string) (includePath : option (list string)) :
  (forall p, In p libPaths -> listed canon (entries_of includePath) p) ->
  ArduinoApp.addLibPath_includePath canon includePath libPaths = includePath.
Proof.
  unfold ArduinoApp.addLibPath_includePath.
  induction libPaths as [| q libPaths IH]; intros Hall; cbn [fold_left]; [reflexivity |].
  rewrite (each_unchanged includePath q (Hall q (or_introl eq_refl))).
  apply IH. intros p Hp. apply Hall. right. exact Hp.
Qed.

Lemma each_keeps_distinct (includePath : option (list string)) (p : string) :
  NoDup (map canon (entries_of includePath)) ->
  NoDup (map canon (entries_of (ArduinoApp.addLibPath_each canon includePath p))).
Proof.
  intros Hnodup. rewrite each_entries.
  destruct (existsb (fun e => canon p =? canon e) (entries_of includePath)) eqn:Hex;
    [exact Hnodup |].
  rewrite map_app. cbn [map]. rewrite canon_idempotent.
  apply NoDup_app.
  - exact Hnodup.
  - constructor; [intros [] | constructor].
  - intros a Ha [Hb | []]. subst a.
    apply in_map_iff in Ha. destruct Ha as [e [Heq He]].
    assert (Hlisted : listed canon (entries_of includePath) p)
      by (exists e; split; [exact He | exact Heq]).
    apply existsb_listed in Hlisted. rewrite Hlisted in Hex. discriminate Hex.
Qed.

(** X28.  Adding library paths to the include path is idempotent up to
    [path.resolve(path.normalize(.))]: afterwards every requested path is
    listed (some entry resolves to the same path), and adding the same
    paths once more changes nothing. *)
Theorem include_path_lists_every_library_once_added
    (includePath : option (list string)) (libPaths : list string) :
  let updated := ArduinoApp.addLibPath_includePath canon includePath libPaths in
  (forall p, In p libPaths -> listed canon (entries_of updated) p)
  /\ ArduinoApp.addLibPath_includePath canon updated libPaths = updated.
Proof.
  cbv zeta.
  assert (Hall : forall p, In p libPaths ->
            listed canon
              (entries_of (ArduinoApp.addLibPath_includePath canon includePath libPaths)) p).
  { intros p Hp. apply all_lists. left. exact Hp. }
  split; [exact Hall |]. apply all_unchanged. exact Hall.
Qed.

(** X29.  Adding library paths only appends: the entries that were there
    stay, in their order, and what is appended are resolved forms of the
    requested paths.  Entries that were pairwise different up to
    resolution stay so: no path is listed twice. *)
Theorem include_path_is_extended_without_duplicates
    (includePath : option (list string)) (libPaths : list string) :
  let updated := ArduinoApp.addLibPath_includePath canon includePath libPaths in
  (exists added,
     entries_of updated = (entries_of includePath ++ added)%list
     /\ forall a, In a added -> exists p, In p libPaths /\ a = canon p)
  /\ (NoDup (map canon (entries_of includePath)) -> NoDup (map canon (entries_of updated))).
Proof.
  cbv zeta. split; [apply all_extends |].
  unfold ArduinoApp.addLibPath_includePath. revert includePath.
  induction libPaths as [| p libPaths IH]; intros includePath Hnodup; cbn [fold_left].
  - exact Hnodup.
  - apply IH. apply each_keeps_distinct. exact Hnodup.
Qed.

End IncludePath.

(** /a is listed already and /b is asked for twice. *)
Lemma include_path_lists_every_library_once_added_witness :
  ArduinoApp.addLibPath_includePath (fun p => p)
    (ArduinoApp.addLibPath_includePath (fun p => p) (Some ["/a"]) ["/a"; "/b"; "/b"])
    ["/a"; "/b"; "/b"]
  = Some ["/a"; "/b"].
Proof.
  exact (proj2 (include_path_lists_every_library_once_added
                  (fun p => p) (fun p => eq_refl) (Some ["/a"]) ["/a"; "/b"; "/b"])).
Defined.

Lemma include_path_is_extended_without_duplicates_witness :
  NoDup (map (fun p => p)
             (entries_of (ArduinoApp.addLibPath_includePath (fun p => p) (Some ["/a"])
                            ["/a"; "/b"; "/b"]))).
Proof.
  apply (proj2 (include_path_is_extended_without_duplicates
                  (fun p => p) (fun p => eq_refl) (Some ["/a"]) ["/a"; "/b"; "/b"])).
  constructor; [intros [] | constructor].
Defined.

Example include_path_created_when_missing :
  ArduinoApp.addLibPath_includePath (fun p => p) None ["/libs/Servo"; "/libs/Servo"]
  = Some ["/libs/Servo"].
Proof. reflexivity. Qed.
